(** * APort integrations: the verification client, its callers and the
      agent-id resolver

    A shallow embedding of the JavaScript CLI client ([APortClient]), of the
    CLI [verify] action that interprets its result, of the Go hello-world
    printer, and of the Express / Next.js agent-id extraction, followed by the
    properties of the specification that can be stated about them. *)

From stdpp Require Import gmap strings list pretty.

Set Warnings "-register-all".
Open Scope string_scope.
Open Scope Z_scope.

(** ** JavaScript values

    The data the sources handle is whatever [JSON.parse] or the host framework
    hands over, so values are untyped.  Numbers are the integers; an object
    keeps its fields in insertion order and a read finds the first binding of
    a key. *)
Module JS.

Inductive value : Type :=
| VUndefined
| VNull
| VBool (b : bool)
| VNum (n : Z)
| VStr (s : string)
| VArr (items : list value)
| VObj (fields : list (string * value)).

(** ToBoolean. *)
Definition truthy (v : value) : bool :=
  match v with
  | VUndefined | VNull => false
  | VBool b => b
  | VNum n => negb (n =? 0)
  | VStr s => negb (String.eqb s "")
  | VArr _ | VObj _ => true
  end.

Definition nullish (v : value) : bool :=
  match v with
  | VUndefined | VNull => true
  | _ => false
  end.

(** [a || b] and [a && b] on values whose right operand is already a value. *)
Definition or (a b : value) : value := if truthy a then a else b.
Definition and (a b : value) : value := if truthy a then b else a.

(** [typeof v === "string"]. *)
Definition is_string (v : value) : bool :=
  match v with
  | VStr _ => true
  | _ => false
  end.

Fixpoint lookup_field (fields : list (string * value)) (k : string) : value :=
  match fields with
  | [] => VUndefined
  | (k', v) :: rest => if String.eqb k' k then v else lookup_field rest k
  end.

(** The value of [v.k] for a [v] that is neither [null] nor [undefined].  The
    keys read by the sources ([data], [decision], [allow], [message],
    [agent_id], ...) name no built-in property of a string, number, boolean
    or array, so only objects answer with something else than [undefined]. *)
Definition field (v : value) (k : string) : value :=
  match v with
  | VObj fields => lookup_field fields k
  | _ => VUndefined
  end.

(** [v?.k]. *)
Definition opt_get (v : value) (k : string) : value :=
  if nullish v then VUndefined else field v k.

(** An element of an array as [Array.prototype.join] prints it. *)
Definition join_item (to_str : value -> string) (v : value) : string :=
  if nullish v then "" else to_str v.

(** ToString, as applied by a template literal.  The numbers are the
    integers the sources handle, printed in decimal (JavaScript changes to
    the exponent form from 10^21 on), and an object is one without a
    [toString] of its own, as the objects parsed from JSON are. *)
Fixpoint to_string (v : value) : string :=
  match v with
  | VUndefined => "undefined"
  | VNull => "null"
  | VBool true => "true"
  | VBool false => "false"
  | VNum n => pretty n
  | VStr s => s
  | VArr items =>
      (fix go (l : list value) : string :=
         match l with
         | [] => ""
         | [x] => join_item to_string x
         | x :: rest => join_item to_string x +:+ "," +:+ go rest
         end) items
  | VObj _ => "[object Object]"
  end.

(** [items.join(sep)]. *)
Fixpoint join (sep : string) (items : list value) : string :=
  match items with
  | [] => ""
  | [x] => join_item to_string x
  | x :: rest => join_item to_string x +:+ sep +:+ join sep rest
  end.

(** A default parameter [p = d]: the default replaces [undefined] only. *)
Definition default_param (d v : value) : value :=
  match v with
  | VUndefined => d
  | _ => v
  end.

End JS.
Export JS.

(** ** Responses, exceptions and the effects of a call

    A call of the client or of the CLI talks to the network through the axios
    instance, writes to the console and may end the process.  The world it
    runs in records the requests in the order they were issued, which is what
    a test double of the transport observes, and the lines printed. *)
Module Runtime.

(** The response object of axios: [response.status], [response.statusText]
    and the decoded body [response.data]. *)
Record Response := {
  status : Z;
  statusText : string;
  data : value;
}.

(** Thrown values: [new Error(message)], the [TypeError] of a property read
    on [null] or [undefined], and the rejection of an axios request, which
    carries [error.response] exactly when an HTTP response was received. *)
Inductive exn : Type :=
| Error (message : string)
| TypeError (message : string)
| AxiosError (response : option Response) (message : string).

Definition exn_message (e : exn) : string :=
  match e with
  | Error m | TypeError m | AxiosError _ m => m
  end.

(** [error.response]. *)
Definition exn_response (e : exn) : option Response :=
  match e with
  | AxiosError r _ => r
  | _ => None
  end.

(** How a piece of code ends: with a value, with a thrown exception, or by
    [process.exit(code)], which no [catch] intercepts. *)
Inductive completion (A : Type) : Type :=
| Normal (a : A)
| Throw (e : exn)
| Exit (code : Z).
Arguments Normal {A} a.
Arguments Throw {A} e.
Arguments Exit {A} code.

(** [v.k]: a [TypeError] on [null] and [undefined]. *)
Definition get (v : value) (k : string) : completion value :=
  if nullish v
  then Throw (TypeError ("Cannot read properties of " +:+ to_string v +:+
                         " (reading '" +:+ k +:+ "')"))
  else Normal (field v k).

Inductive method : Type := GET | POST.

(** A request as it leaves the axios instance: the instance configuration
    merged with what the call site passes. *)
Record Request := {
  req_method : method;
  req_url : string;
  req_baseURL : value;
  req_headers : gmap string string;
  req_params : list (string * string);
  req_body : value;
  req_timeout : Z;
}.

(** [axios.create({ baseURL, headers, timeout })]. *)
Record AxiosInstance := {
  inst_baseURL : value;
  inst_headers : gmap string string;
  inst_timeout : Z;
}.

(** A promise returned by axios either resolves with a response or rejects. *)
Inductive settled : Type :=
| Resolved (r : Response)
| Rejected (e : exn).

(** The transport (the remote service or its test double): it answers a
    request knowing the requests already received. *)
Definition Backend : Type := list Request -> Request -> settled.

Inductive stream : Type := Stdout | Stderr.

(** The requests made so far, and the lines written through [console.log]
    ([Stdout]) and [console.error] ([Stderr]).  What a spinner or a prompt
    draws on the terminal is not recorded. *)
Record World := {
  requests : list Request;
  console : list (stream * string);
}.

Definition new_world : World := {| requests := []; console := [] |}.

Definition Async (A : Type) : Type := Backend -> World -> completion A * World.

#[global] Instance Async_ret : MRet Async :=
  fun A a _ w => (Normal a, w).

#[global] Instance Async_bind : MBind Async :=
  fun A B k m be w =>
    match m be w with
    | (Normal a, w') => k a be w'
    | (Throw e, w') => (Throw e, w')
    | (Exit c, w') => (Exit c, w')
    end.

Definition throw {A} (e : exn) : Async A := fun _ w => (Throw e, w).

(** [process.exit(code)]. *)
Definition process_exit {A} (code : Z) : Async A := fun _ w => (Exit code, w).

Definition lift {A} (c : completion A) : Async A := fun _ w => (c, w).

(** [try { body } catch (error) { handler }]. *)
Definition try_catch {A} (body : Async A) (handler : exn -> Async A) : Async A :=
  fun be w =>
    match body be w with
    | (Throw e, w') => handler e be w'
    | r => r
    end.


(** The world after one more request. *)
Definition sent (w : World) (r : Request) : World :=
  {| requests := requests w ++ [r]; console := console w |}.

(** The world after one more line on the console. *)
Definition printed (w : World) (s : stream) (line : string) : World :=
  {| requests := requests w; console := console w ++ [(s, line)] |}.

Definition print (s : stream) (line : string) : Async unit :=
  fun _ w => (Normal tt, printed w s line).

(** The request an instance makes of a call. *)
Definition request_of (inst : AxiosInstance) (m : method) (url : string)
    (params : list (string * string)) (body : value) : Request :=
  {| req_method := m; req_url := url;
     req_baseURL := inst_baseURL inst;
     req_headers := inst_headers inst;
     req_params := params; req_body := body;
     req_timeout := inst_timeout inst |}.

(** One request through the instance: it is recorded, then answered. *)
Definition send (inst : AxiosInstance) (m : method) (url : string)
    (params : list (string * string)) (body : value) : Async Response :=
  fun be w =>
    let r := request_of inst m url params body in
    match be (requests w) r with
    | Resolved resp => (Normal resp, sent w r)
    | Rejected e => (Throw e, sent w r)
    end.

(** [instance.post(url, data)] and [instance.get(url, { params })]. *)
Definition axios_post (inst : AxiosInstance) (url : string) (body : value) : Async Response :=
  send inst POST url [] body.

Definition axios_get (inst : AxiosInstance) (url : string)
    (params : list (string * string)) : Async Response :=
  send inst GET url params VUndefined.

(** What axios does, under its default [validateStatus], with the response
    that ends an exchange: the promise resolves for a status from 200 to 299
    and rejects with the response attached otherwise.  A redirect that
    carries a [Location] does not end the exchange (the instance follows
    it), so the properties below use this function for 2xx, 4xx and 5xx
    answers only. *)
Definition axios_settle (r : Response) : settled :=
  if (200 <=? status r) && (status r <? 300)
  then Resolved r
  else Rejected (AxiosError (Some r)
                   ("Request failed with status code " +:+ pretty (status r))).

(** No response at all, here the timeout of the instance. *)
Definition axios_timeout (ms : Z) : settled :=
  Rejected (AxiosError None ("timeout of " +:+ pretty ms +:+ "ms exceeded")).

Definition run {A} (m : Async A) (be : Backend) : completion A * World :=
  m be new_world.

End Runtime.
Export Runtime.

(** ** The client: [class APortClient] of the CLI example *)
Module Client.

Record APortClient := {
  apiKey : value;
  baseUrl : value;
  client : AxiosInstance;
}.

(** [process.env.NAME]: a string, or [undefined] when the variable is unset. *)
Definition env_get (env : gmap string string) (name : string) : value :=
  match env !! name with
  | Some s => VStr s
  | None => VUndefined
  end.

(** The [headers] literal of the constructor: spreading a falsy [apiKey]
    adds nothing, a truthy one adds the bearer header. *)
Definition default_headers (apiKey : value) : gmap string string :=
  <["Content-Type" := "application/json"]>
    (if truthy apiKey
     then {["Authorization" := "Bearer " +:+ to_string apiKey]}
     else ∅).

(** [new APortClient(options)] under the environment [env]. *)
Definition constructor (options : value) (env : gmap string string)
  : completion APortClient :=
  let options := default_param (VObj []) options in
  match get options "apiKey" with
  | Normal optKey =>
      let apiKey := JS.or optKey (env_get env "APORT_API_KEY") in
      let baseUrl :=
        JS.or (JS.or (field options "baseUrl") (env_get env "APORT_BASE_URL"))
              (VStr "https://aport.io") in
      Normal {| apiKey := apiKey;
                baseUrl := baseUrl;
                client := {| inst_baseURL := baseUrl;
                             inst_headers := default_headers apiKey;
                             inst_timeout := 10000 |} |}
  | Throw e => Throw e
  | Exit c => Exit c
  end.

Definition verify (this : APortClient) (policy agentId context : value) : Async value :=
  let context := default_param (VObj []) context in
  try_catch
    (response ← axios_post (client this)
                  ("/api/verify/policy/" +:+ to_string policy)
                  (VObj [("context",
                          VObj [("agent_id", agentId);
                                ("policy_id", policy);
                                ("context", context)])]);
     mret (data response))
    (fun error =>
       match exn_response error with
       | Some response =>
           message ← lift (get (data response) "message");
           throw (Error ("API Error: " +:+
                         to_string (JS.or message (VStr (statusText response)))))
       | None => throw (Error ("Network Error: " +:+ exn_message error))
       end).

Definition verifyPolicy (this : APortClient) (policy agentId context : value) : Async value :=
  let context := default_param (VObj []) context in
  try_catch
    (response ← axios_post (client this)
                  ("/api/verify/policy/" +:+ to_string policy)
                  (VObj [("context",
                          VObj [("agent_id", agentId);
                                ("policy_id", policy);
                                ("context", context)])]);
     mret (data response))
    (fun error =>
       match exn_response error with
       | Some response =>
           message ← lift (get (data response) "message");
           throw (Error ("API Error: " +:+
                         to_string (JS.or message (VStr (statusText response)))))
       | None => throw (Error ("Network Error: " +:+ exn_message error))
       end).

(** The [catch] block shared, word for word, by the remaining methods. *)
Definition rethrow {A} (error : exn) : Async A :=
  match exn_response error with
  | Some response =>
      message ← lift (get (data response) "message");
      throw (Error ("API Error: " +:+
                    to_string (JS.or message (VStr (statusText response)))))
  | None => throw (Error ("Network Error: " +:+ exn_message error))
  end.

Definition createPassport_key_required : string :=
  "API key required for passport creation. Set APORT_API_KEY environment variable or use --api-key option.".

Definition getPassport_key_required : string :=
  "API key required for passport retrieval. Set APORT_API_KEY environment variable or use --api-key option.".

Definition createPassport (this : APortClient) (passportData : value) : Async value :=
  if negb (truthy (apiKey this))
  then throw (Error createPassport_key_required)
  else
    try_catch
      (response ← axios_post (client this) "/api/issue" passportData;
       mret (data response))
      rethrow.

(** The [try] block either returns the passport ([Some]) or falls through
    to the statement after the [try]/[catch] ([None]). *)
Definition getPassport (this : APortClient) (agentId : value) : Async value :=
  returned ←
    try_catch
      (response ← axios_get (client this)
                    ("/api/verify/" +:+ to_string agentId)
                    [("policy_pack", "code.repository.merge.v1");
                     ("context", "{}")];
       if truthy (JS.and (data response) (field (data response) "agent_id"))
       then mret (Some (data response))
       else mret None)
      (fun error =>
         if negb (truthy (apiKey this))
         then throw (Error getPassport_key_required)
         else
           try_catch
             (response ← axios_get (client this)
                           ("/api/passports/" +:+ to_string agentId) [];
              mret (Some (data response)))
             rethrow);
  match returned with
  | Some passport => mret passport
  | None => throw (Error "Unable to retrieve passport information")
  end.

Definition suspendPassport (this : APortClient) (agentId reason : value) : Async value :=
  let reason := default_param (VStr "Suspended via CLI") reason in
  try_catch
    (response ← axios_post (client this) "/api/suspend"
                  (VObj [("agent_id", agentId); ("reason", reason)]);
     mret (data response))
    rethrow.

Definition getPolicyPack (this : APortClient) (policyId : value) : Async value :=
  try_catch
    (response ← axios_get (client this) ("/api/policies/" +:+ to_string policyId) [];
     mret (data response))
    rethrow.

Definition listPolicyPacks (this : APortClient) : Async value :=
  try_catch
    (response ← axios_get (client this) "/api/policies" [];
     mret (data response))
    rethrow.

(** A call of one of the methods, to speak of all of them at once. *)
Inductive call : Type :=
| CallVerify (policy agentId context : value)
| CallVerifyPolicy (policy agentId context : value)
| CallCreatePassport (passportData : value)
| CallGetPassport (agentId : value)
| CallSuspendPassport (agentId reason : value)
| CallGetPolicyPack (policyId : value)
| CallListPolicyPacks.

Definition invoke (this : APortClient) (c : call) : Async value :=
  match c with
  | CallVerify p a ctx => verify this p a ctx
  | CallVerifyPolicy p a ctx => verifyPolicy this p a ctx
  | CallCreatePassport d => createPassport this d
  | CallGetPassport a => getPassport this a
  | CallSuspendPassport a r => suspendPassport this a r
  | CallGetPolicyPack p => getPolicyPack this p
  | CallListPolicyPacks => listPolicyPacks this
  end.

(** The expectation [expect(() => new APortClient()).toThrow(text)] of the
    unit test: it holds when the constructor throws an error whose message
    contains [text]. *)
Fixpoint is_prefix (p s : string) : bool :=
  match p, s with
  | EmptyString, _ => true
  | String a p', String b s' => Ascii.eqb a b && is_prefix p' s'
  | String _ _, EmptyString => false
  end.

Fixpoint includes (text s : string) : bool :=
  is_prefix text s ||
  match s with
  | EmptyString => false
  | String _ s' => includes text s'
  end.

Definition toThrow {A} (c : completion A) (text : string) : bool :=
  match c with
  | Throw e => includes text (exn_message e)
  | _ => false
  end.

End Client.
Export Client.

(** ** The CLI: the [verify] command of [examples/developer-tools/cli] *)
Module CLI.

(** What the Node runtime contributes and the sources only call:
    [JSON.parse] ([None] stands for its [SyntaxError]) and whether a string
    converts to a number greater than zero. *)
Record Host := {
  JSON_parse : string -> option value;
  string_gt_zero : string -> bool;
}.

(** [v > 0]: ToNumber on [undefined] is NaN, on [null] is 0, on an object it
    goes through its string form. *)
Definition gt_zero (host : Host) (v : value) : bool :=
  match v with
  | VUndefined | VNull => false
  | VBool b => b
  | VNum n => 0 <? n
  | VStr s => string_gt_zero host s
  | VArr _ | VObj _ => string_gt_zero host (to_string v)
  end.

(** [reasons.length > 0]. *)
Definition length_gt_zero (host : Host) (reasons : value) : bool :=
  match reasons with
  | VStr s => negb (String.eqb s "")
  | VArr items => match items with [] => false | _ => true end
  | VObj fields => gt_zero host (lookup_field fields "length")
  | _ => false
  end.

Fixpoint messages (items : list value) : completion (list value) :=
  match items with
  | [] => Normal []
  | r :: rest =>
      match get r "message" with
      | Normal m =>
          match messages rest with
          | Normal ms => Normal (m :: ms)
          | Throw e => Throw e
          | Exit c => Exit c
          end
      | Throw e => Throw e
      | Exit c => Exit c
      end
  end.

(** [reasons.map((r) => r.message).join(", ")]: only an array has a [map]
    to call. *)
Definition reasons_text (reasons : value) : completion string :=
  match reasons with
  | VArr items =>
      match messages items with
      | Normal ms => Normal (join ", " ms)
      | Throw e => Throw e
      | Exit c => Exit c
      end
  | _ => Throw (TypeError "decision.reasons.map is not a function")
  end.

(** [result.data?.decision || result.decision] (the [verify] and [demo]
    actions). *)
Definition result_decision (result : value) : completion value :=
  match get result "data" with
  | Normal d => Normal (JS.or (opt_get d "decision") (field result "decision"))
  | Throw e => Throw e
  | Exit c => Exit c
  end.

(** [decision && decision.allow]. *)
Definition isApproved (decision : value) : value :=
  JS.and decision (field decision "allow").

(** What the command line and the prompt hand to the action. *)
Record VerifyArgs := {
  posAgentId : value;
  posPolicy : value;
  posContext : value;
  opt_agentId : value;
  opt_policy : value;
  opt_context : value;
  opt_interactive : value;
  program_apiKey : value;
  answers : value * value * value;
}.

Definition say (line : string) : Async unit := print Stdout line.
Definition complain (line : string) : Async unit := print Stderr line.

Definition when (b : bool) (m : Async unit) : Async unit :=
  if b then m else mret tt.

(** The branch taken for an approved decision. *)
Definition report_approved (host : Host) (agentId policy decision : value) : Async unit :=
  say "✅ Agent verification successful!";;
  say ("Agent: " +:+ to_string agentId);;
  say ("Policy: " +:+ to_string policy);;
  let reasons := field decision "reasons" in
  when (truthy reasons && length_gt_zero host reasons)
    (text ← lift (reasons_text reasons);
     say ("Notes: " +:+ text)).

(** The branch taken otherwise. *)
Definition report_failed (host : Host) (decision : value) : Async unit :=
  say "❌ Agent verification failed";;
  let reasons := field decision "reasons" in
  (if truthy decision && truthy reasons && length_gt_zero host reasons
   then text ← lift (reasons_text reasons);
        say ("Reasons: " +:+ text)
   else say "Reason: Unknown");;
  when (truthy decision)
    (say "
Decision Details:";;
     say ("  Decision ID: " +:+ to_string (field decision "decision_id"));;
     say ("  Allow: " +:+ (if truthy (field decision "allow") then "✅" else "❌"));;
     say ("  Expires: " +:+ to_string (field decision "expires_in") +:+ "s");;
     when (truthy (field decision "assurance_level"))
       (say ("  Assurance Level: " +:+ to_string (field decision "assurance_level")))).

(** What the action does with the result of [client.verify]. *)
Definition report (host : Host) (agentId policy result : value) : Async unit :=
  decision ← lift (result_decision result);
  if truthy (isApproved decision)
  then report_approved host agentId policy decision
  else report_failed host decision.

(** [agentId], [policy] and [context] as the action settles them: positional
    arguments before options, and the answers of the prompt in interactive
    mode. *)
Definition settle_args (args : VerifyArgs) : value * value * value :=
  let agentId := JS.or (posAgentId args) (opt_agentId args) in
  let policy := JS.or (posPolicy args) (opt_policy args) in
  let context := JS.or (posContext args) (opt_context args) in
  if truthy (opt_interactive args)
  then answers args
  else (agentId, policy, context).

(** [contextObj]: the empty object unless a context was given, which is
    then parsed; [None] when the parser throws. *)
Definition parsed_context (host : Host) (context : value) : option value :=
  if truthy context
  then JSON_parse host (to_string context)
  else Some (VObj []).

(** The outer [catch] of the action. *)
Definition on_error (error : exn) : Async unit :=
  complain ("❌ Error: " +:+ exn_message error);;
  process_exit 1.

(** The action of [program.command("verify")].  The spinner only draws on
    the terminal and is not part of the console record. *)
Definition verify_action (host : Host) (env : gmap string string)
    (args : VerifyArgs) : Async unit :=
  match constructor (VObj [("apiKey", program_apiKey args)]) env with
  | Normal client =>
      try_catch
        (let '(agentId, policy, context) := settle_args args in
         when (negb (truthy agentId) || negb (truthy policy))
           (complain "❌ Agent ID and policy are required";;
            process_exit 1);;
         contextObj ←
           match parsed_context host context with
           | Some parsed => mret parsed
           | None => complain "❌ Invalid JSON context";;
                     process_exit 1
           end;
         result ← verify client policy agentId contextObj;
         report host agentId policy result)
        on_error
  | Throw e => throw e
  | Exit c => process_exit c
  end.


(** The test runners ([runMessagingPolicyTests] and its data-export twin)
    read the same result as [result.decision || result.data?.decision]. *)
Definition runner_decision (result : value) : completion value :=
  match get result "decision" with
  | Normal d =>
      Normal (if truthy d then d else opt_get (field result "data") "decision")
  | Throw e => Throw e
  | Exit c => Exit c
  end.

End CLI.
Export CLI.

(** ** The Go hello-world example: [printVerificationResult] *)
Module Go.

Record Reason := { Message : string }.

Record Decision := {
  Allow : bool;
  DecisionID : string;
  ExpiresIn : Z;
  Reasons : list Reason;
}.

(** Pointers are options: [nil] is [None]. *)
Record DecisionData := { DataDecision : option Decision }.

Record VerifyResponse := {
  Data : option DecisionData;
  TopDecision : option Decision;
}.

(** The selection at the head of [printVerificationResult]. *)
Definition selected (result : VerifyResponse) : option Decision :=
  match Data result with
  | Some d =>
      match DataDecision d with
      | Some dec => Some dec
      | None => TopDecision result
      end
  | None => TopDecision result
  end.

(** The lines written to standard output. *)
Definition printVerificationResult (result : VerifyResponse)
    (agentID policy : string) : list string :=
  match selected result with
  | None => ["No decision found in response"]
  | Some decision =>
      ["Verification Result:";
       "   Agent ID: " +:+ agentID;
       "   Policy: " +:+ policy;
       "   Decision ID: " +:+ DecisionID decision;
       (if Allow decision then "   Status: ALLOWED" else "   Status: DENIED");
       "   Expires In: " +:+ pretty (ExpiresIn decision) +:+ " seconds"]
      ++ (match Reasons decision with
          | [] => []
          | reasons => "   Reasons:" :: map (fun r => "     - " +:+ Message r) reasons
          end)
      ++ [""; (if Allow decision
               then "Success! Agent verification passed."
               else "Agent verification failed.")]
  end.

End Go.

(** ** Agent-id extraction in the framework adapters *)
Module Middleware.

(** The part of an Express request the extraction reads.  Express always
    provides [req.headers] and [req.query] as objects; [req.body] is whatever
    the body parser left there, possibly [undefined]. *)
Record ExpressRequest := {
  headers : list (string * value);
  query : list (string * value);
  body : value;
}.

(** The [sources] array: thunks, evaluated one at a time by the loop. *)
Definition sources (req : ExpressRequest) (options : value)
  : list (unit -> completion value) :=
  [ (fun _ => Normal (lookup_field (headers req) "x-agent-id"));
    (fun _ => Normal (lookup_field (headers req) "x-aport-agent-id"));
    (fun _ => Normal (lookup_field (query req) "agent_id"));
    (fun _ => get (body req) "agent_id");
    (fun _ => get (body req) "agentId");
    (fun _ => get options "agentId") ].

(** The [for ... of] loop with its early [return], then [return null]. *)
Fixpoint first_agent_id (srcs : list (unit -> completion value)) : completion value :=
  match srcs with
  | [] => Normal VNull
  | source :: rest =>
      match source tt with
      | Normal agentId =>
          if truthy agentId && is_string agentId
          then Normal agentId
          else first_agent_id rest
      | Throw e => Throw e
      | Exit c => Exit c
      end
  end.

Definition extractAgentId (req : ExpressRequest) (options : value) : completion value :=
  first_agent_id (sources req (default_param (VObj []) options)).

(** The part of a [NextRequest] the Next.js middleware reads; [Headers.get]
    and [URLSearchParams.get] answer a string or [null]. *)
Record NextRequest := {
  next_headers : gmap string string;
  searchParams : list (string * string);
}.

Definition headers_get (request : NextRequest) (name : string) : value :=
  match next_headers request !! name with
  | Some s => VStr s
  | None => VNull
  end.

Fixpoint params_get (params : list (string * string)) (name : string) : value :=
  match params with
  | [] => VNull
  | (k, v) :: rest => if String.eqb k name then VStr v else params_get rest name
  end.

(** The [agentId] constant of the Next.js [middleware]. *)
Definition middleware_agentId (request : NextRequest) : value :=
  JS.or (JS.or (headers_get request "x-agent-id")
               (headers_get request "x-aport-agent-id"))
        (params_get (searchParams request) "agent_id").

End Middleware.

(** ** The resolver contract and sample data *)
Module Samples.

(** The contract of the resolver in the words of the specification: the
    first candidate, in priority order, that is a non-empty string, and
    [null] when there is none. *)
Fixpoint first_nonempty_string (candidates : list value) : value :=
  match candidates with
  | [] => VNull
  | VStr s :: rest => if String.eqb s "" then first_nonempty_string rest else VStr s
  | _ :: rest => first_nonempty_string rest
  end.

(** The two envelopes of a decision. *)
Definition shapeA (decision : value) : value :=
  VObj [("data", VObj [("decision", decision)])].

Definition shapeB (decision : value) : value :=
  VObj [("decision", decision)].

Definition ok (body : value) : Response :=
  {| status := 200; statusText := "OK"; data := body |}.

(** A transport double that gives the same answer to every request. *)
Definition always (s : settled) : Backend := fun _ _ => s.

(** A transport double that answers the n-th request with the n-th element
    of a script, and times out once the script is exhausted. *)
Definition scripted (script : list settled) : Backend :=
  fun history _ => nth (length history) script (axios_timeout 10000).

Definition allow_decision : value :=
  VObj [("allow", VBool true); ("decision_id", VStr "dec_1");
        ("expires_in", VNum 3600); ("reasons", VArr [])].

Definition deny_decision : value :=
  VObj [("allow", VBool false); ("decision_id", VStr "dec_2");
        ("expires_in", VNum 60);
        ("reasons", VArr [VObj [("code", VStr "limit_exceeded");
                               ("message", VStr "Amount exceeds limit")]])].


(** The body [{"message":"Agent not found"}] under a given status. *)
Definition agent_not_found (code : Z) (text : string) : Response :=
  {| status := code; statusText := text;
     data := VObj [("message", VStr "Agent not found")] |}.

(** A client built without any credential, and one built with a key. *)
Definition anonymous : APortClient :=
  {| apiKey := VUndefined;
     baseUrl := VStr "https://aport.io";
     client := {| inst_baseURL := VStr "https://aport.io";
                  inst_headers := default_headers VUndefined;
                  inst_timeout := 10000 |} |}.

Definition keyed : APortClient :=
  {| apiKey := VStr "test-api-key";
     baseUrl := VStr "https://aport.io";
     client := {| inst_baseURL := VStr "https://aport.io";
                  inst_headers := default_headers (VStr "test-api-key");
                  inst_timeout := 10000 |} |}.

(** A host for the runs below, none of which passes a context string or a
    reason list that is not an array: its parser accepts the empty object
    only and it finds no string positive. *)
Definition bare_host : Host :=
  {| JSON_parse := fun s => if String.eqb s "{}" then Some (VObj []) else None;
     string_gt_zero := fun _ => false |}.

(** [aport verify <agentId> <policy>] with nothing else on the command line. *)
Definition positional (agentId policy : value) : VerifyArgs :=
  {| posAgentId := agentId; posPolicy := policy; posContext := VUndefined;
     opt_agentId := VUndefined; opt_policy := VUndefined;
     opt_context := VUndefined; opt_interactive := VUndefined;
     program_apiKey := VUndefined;
     answers := (VUndefined, VUndefined, VUndefined) |}.

End Samples.
Export Samples.

(** ** The requests of the wire protocol, as the client phrases them *)
Module Wire.

Definition verify_request (this : APortClient) (policy agentId context : value) : Request :=
  request_of (client this) POST ("/api/verify/policy/" +:+ to_string policy) []
    (VObj [("context",
            VObj [("agent_id", agentId);
                  ("policy_id", policy);
                  ("context", default_param (VObj []) context)])]).


Definition probe_request (this : APortClient) (agentId : value) : Request :=
  request_of (client this) GET ("/api/verify/" +:+ to_string agentId)
    [("policy_pack", "code.repository.merge.v1"); ("context", "{}")] VUndefined.

Definition passport_request (this : APortClient) (agentId : value) : Request :=
  request_of (client this) GET ("/api/passports/" +:+ to_string agentId) [] VUndefined.



(** The [Authorization] header a client is expected to send: the bearer
    header when it holds a credential, none otherwise. *)
Definition bearer (this : APortClient) : option string :=
  if truthy (apiKey this)
  then Some ("Bearer " +:+ to_string (apiKey this))
  else None.

(** [w'] is [w] after some more requests, all made through the instance of
    the client. *)
Definition client_requests (this : APortClient) (w w' : World) : Prop :=
  exists new,
    requests w' = (requests w ++ new)%list /\
    Forall (fun r => req_headers r = inst_headers (client this)) new.

(** The six candidates of the Express resolver, in its priority order. *)
Definition candidates (req : Middleware.ExpressRequest) (options : value) : list value :=
  [ lookup_field (Middleware.headers req) "x-agent-id";
    lookup_field (Middleware.headers req) "x-aport-agent-id";
    lookup_field (Middleware.query req) "agent_id";
    field (Middleware.body req) "agent_id";
    field (Middleware.body req) "agentId";
    field (default_param (VObj []) options) "agentId" ].

(** Those of them that are read off the headers and the query. *)
Definition head_candidates (req : Middleware.ExpressRequest) : list value :=
  [ lookup_field (Middleware.headers req) "x-agent-id";
    lookup_field (Middleware.headers req) "x-aport-agent-id";
    lookup_field (Middleware.query req) "agent_id" ].

(** The three sources the Next.js middleware reads. *)
Definition next_candidates (request : Middleware.NextRequest) : list value :=
  [ Middleware.headers_get request "x-agent-id";
    Middleware.headers_get request "x-aport-agent-id";
    Middleware.params_get (Middleware.searchParams request) "agent_id" ].

End Wire.
Export Wire.

(** ** The other commands of the CLI: [policy], [create-passport],
       [get-passport] and [demo] *)
Module Commands.

(** What these commands ask of the runtime to print a value:
    [JSON.stringify(v, null, 2)], which is a string or, for [undefined],
    [undefined]; and the form [console.log] gives an argument that is not a
    string. *)
Record Printer := {
  JSON_stringify : value -> value;
  inspect : value -> string;
}.

(** An argument of [console.log] after the first. *)
Definition shown (pr : Printer) (v : value) : string :=
  match v with
  | VStr s => s
  | _ => inspect pr v
  end.

(** [console.log(label, v)]. *)
Definition say2 (pr : Printer) (label : string) (v : value) : Async unit :=
  say (label +:+ " " +:+ shown pr v).

(** [SAMPLE_AGENTS]. *)
Definition refund_bot : value := VStr "ap_a2d10232c6534523812423eec8a1425c".
Definition data_exporter : value := VStr "ap_b804b365003247888c06c94347cf54fe".

Record PolicyArgs := {
  pol_agentId : value;
  pol_policy : value;
  pol_context : value;
  pol_apiKey : value;
}.

(** The action of [program.command("policy")]. *)
Definition policy_action (host : Host) (pr : Printer) (env : gmap string string)
    (args : PolicyArgs) : Async unit :=
  match constructor (VObj [("apiKey", pol_apiKey args)]) env with
  | Normal client =>
      try_catch
        (when (negb (truthy (pol_agentId args)) || negb (truthy (pol_policy args)))
           (complain "❌ Agent ID and policy are required";;
            process_exit 1);;
         contextObj ←
           match parsed_context host (pol_context args) with
           | Some parsed => mret parsed
           | None => complain "❌ Invalid JSON context";;
                     process_exit 1
           end;
         result ← verifyPolicy client (pol_policy args) (pol_agentId args) contextObj;
         verified ← lift (get result "verified");
         if truthy verified
         then say "✅ Policy verification successful!";;
              say2 pr "📋 Passport:" (JSON_stringify pr (field result "passport"));;
              say2 pr "🔒 Policy:" (field result "policy")
         else say "❌ Policy verification failed";;
              say2 pr "Reason:" (JS.or (field result "reason") (VStr "Unknown")))
        on_error
  | Throw e => throw e
  | Exit c => process_exit c
  end.

Record GetPassportArgs := {
  gp_agentId : value;
  gp_interactive : value;
  gp_answer : value;
  gp_apiKey : value;
}.

(** The action of [program.command("get-passport")]; [gp_answer] is the
    agent picked at the prompt, read in interactive mode only. *)
Definition get_passport_action (pr : Printer) (env : gmap string string)
    (args : GetPassportArgs) : Async unit :=
  match constructor (VObj [("apiKey", gp_apiKey args)]) env with
  | Normal client =>
      try_catch
        (let agentId :=
           if truthy (gp_interactive args) then gp_answer args else gp_agentId args in
         when (negb (truthy agentId))
           (complain "❌ Agent ID is required";;
            process_exit 1);;
         result ← getPassport client agentId;
         say "✅ Passport retrieved successfully!";;
         say2 pr "📋 Passport:" (JSON_stringify pr result))
        on_error
  | Throw e => throw e
  | Exit c => process_exit c
  end.

Record CreatePassportArgs := {
  cp_interactive : value;
  cp_name : value;
  cp_role : value;
  cp_description : value;
  cp_capabilities : value;
  cp_contact : value;
  cp_apiKey : value;
}.

Definition passport_limits : value :=
  VObj [("refund_amount_max_per_tx", VNum 100);
        ("refund_amount_daily_cap", VNum 500);
        ("max_rows_per_export", VNum 10000);
        ("allow_pii", VBool false)].

Definition passport_links : value :=
  VObj [("homepage", VStr "https://aport.io");
        ("repo", VStr "https://github.com/aporthq/aport-integrations")].

(** The passport assembled from [name], [role], [description],
    [capabilities] and [contact]; the rest is the same in both modes. *)
Definition passport_of (name role description capabilities contact : value) : value :=
  VObj [("name", name);
        ("role", role);
        ("description", description);
        ("capabilities", capabilities);
        ("limits", passport_limits);
        ("regions", VArr [VStr "US"]);
        ("contact", contact);
        ("controller_type", VStr "person");
        ("status", VStr "active");
        ("links", passport_links);
        ("categories", VArr [VStr "test"; VStr "cli"]);
        ("framework", VArr [VStr "APort CLI"])].

(** [answers.capabilities.map((cap) => ({ id: cap, params: {} }))]. *)
Definition capabilities_of (answer : value) : completion value :=
  match answer with
  | VUndefined | VNull =>
      Throw (TypeError ("Cannot read properties of " +:+ to_string answer +:+
                        " (reading 'map')"))
  | VArr items =>
      Normal (VArr (map (fun cap => VObj [("id", cap); ("params", VObj [])]) items))
  | _ => Throw (TypeError "answers.capabilities.map is not a function")
  end.

Definition default_passport : value :=
  passport_of (VStr "CLI Test Agent") (VStr "Test Agent")
    (VStr "A test agent created via APort CLI")
    (VArr [VObj [("id", VStr "payments.refund"); ("params", VObj [])];
           VObj [("id", VStr "data.export"); ("params", VObj [])]])
    (VStr "test@example.com").

(** The action of [program.command("create-passport")]; the fields of the
    arguments other than the key are the answers of the prompt, read in
    interactive mode only.  As in the other commands, the spinner is not
    part of the console record. *)
Definition create_passport_action (pr : Printer) (env : gmap string string)
    (args : CreatePassportArgs) : Async unit :=
  match constructor (VObj [("apiKey", cp_apiKey args)]) env with
  | Normal client =>
      try_catch
        (passportData ←
           (if truthy (cp_interactive args)
            then capabilities ← lift (capabilities_of (cp_capabilities args));
                 mret (passport_of (cp_name args) (cp_role args)
                         (cp_description args) capabilities (cp_contact args))
            else mret default_passport);
         result ← createPassport client passportData;
         say "✅ Passport created successfully!";;
         agent_id ← lift (get result "agent_id");
         say2 pr "🆔 Agent ID:" agent_id;;
         say2 pr "📋 Passport:" (JSON_stringify pr result))
        on_error
  | Throw e => throw e
  | Exit c => process_exit c
  end.

(** The [catch] of each step of the demo: the error is printed and the demo
    goes on. *)
Definition demo_error (error : exn) : Async unit :=
  say ("❌ Error: " +:+ exn_message error).

(** One verification step of the demo. *)
Definition demo_verify (client : APortClient) (policy agentId context : value) : Async unit :=
  try_catch
    (result ← verify client policy agentId context;
     decision ← lift (result_decision result);
     say (if truthy (isApproved decision) then "✅ Verified" else "❌ Failed"))
    demo_error.

(** The action of [program.command("demo")]. *)
Definition demo_action (pr : Printer) (env : gmap string string)
    (program_key : value) : Async unit :=
  match constructor (VObj [("apiKey", program_key)]) env with
  | Normal client =>
      say "🎬 Running APort CLI Demo...
";;
      say "1. Verifying refund bot against payments.refund.v1 policy";;
      demo_verify client (VStr "payments.refund.v1") refund_bot
        (VObj [("amount", VNum 50); ("currency", VStr "USD")]);;
      say "
2. Verifying data exporter against data.export.v1 policy";;
      demo_verify client (VStr "data.export.v1") data_exporter
        (VObj [("rows", VNum 5000); ("dataset", VStr "users")]);;
      say "
3. Fetching passport for admin bot";;
      try_catch
        (passport ← getPassport client refund_bot;
         name ← lift (get passport "name");
         say2 pr "✅ Passport retrieved:" name)
        demo_error;;
      say "
🎉 Demo completed!"
  | Throw e => throw e
  | Exit c => process_exit c
  end.

End Commands.
Export Commands.

(** ** The policy test runners: the loop of [runMessagingPolicyTests] and
       [runDataExportPolicyTests]

    The two scripts differ in their table of cases, their policy and their
    agent only.  The loop is modelled with its counters; the summary printed
    after it is not. *)
Module Runner.

Record TestCase := {
  name : string;
  context : value;
  shouldPass : bool;
  expectedReason : option string;
}.

(** [testCase.expectedReason ? ... : ...]: a missing or empty reason is
    falsy. *)
Definition expected_of (tc : TestCase) : option string :=
  match expectedReason tc with
  | Some s => if String.eqb s "" then None else Some s
  | None => None
  end.

(** [`${testCase.expectedReason}`]. *)
Definition expected_text (tc : TestCase) : string :=
  match expectedReason tc with
  | Some s => s
  | None => "undefined"
  end.

(** [v?.includes(expected)] for a string [expected]: nothing on [null] and
    [undefined], the substring test on a string, the membership test on an
    array, and no method to call on anything else. *)
Definition optional_includes (what : string) (v : value) (expected : string)
  : completion value :=
  match v with
  | VUndefined | VNull => Normal VUndefined
  | VStr s => Normal (VBool (includes expected s))
  | VArr items =>
      Normal (VBool (existsb (fun x => match x with
                                       | VStr t => String.eqb t expected
                                       | _ => false
                                       end) items))
  | _ => Throw (TypeError (what +:+ " is not a function"))
  end.

(** The callback of [reasons.some]. *)
Definition reason_matches (expected : string) (r : value) : completion value :=
  match get r "code" with
  | Normal code =>
      match optional_includes "r.code?.includes" code expected with
      | Normal found =>
          if truthy found
          then Normal found
          else optional_includes "r.message?.includes" (field r "message") expected
      | Throw e => Throw e
      | Exit c => Exit c
      end
  | Throw e => Throw e
  | Exit c => Exit c
  end.

Fixpoint some_matches (expected : string) (items : list value) : completion bool :=
  match items with
  | [] => Normal false
  | r :: rest =>
      match reason_matches expected r with
      | Normal found => if truthy found then Normal true else some_matches expected rest
      | Throw e => Throw e
      | Exit c => Exit c
      end
  end.

(** [reasons.some(...)]. *)
Definition has_reason (expected : string) (reasons : value) : completion bool :=
  match reasons with
  | VArr items => some_matches expected items
  | _ => Throw (TypeError "reasons.some is not a function")
  end.

Fixpoint codes (items : list value) : completion (list value) :=
  match items with
  | [] => Normal []
  | r :: rest =>
      match get r "code" with
      | Normal code =>
          match codes rest with
          | Normal cs => Normal (JS.or code (field r "message") :: cs)
          | Throw e => Throw e
          | Exit c => Exit c
          end
      | Throw e => Throw e
      | Exit c => Exit c
      end
  end.

(** [reasons.map((r) => r.code || r.message).join(", ")]. *)
Definition codes_text (reasons : value) : completion string :=
  match reasons with
  | VArr items =>
      match codes items with
      | Normal cs => Normal (join ", " cs)
      | Throw e => Throw e
      | Exit c => Exit c
      end
  | _ => Throw (TypeError "reasons.map is not a function")
  end.

Definition verdict (b : bool) : string := if b then "PASS" else "FAIL".

(** What a turn of the loop does with the result of [client.verify], on the
    counters [(passed, failed)]. *)
Definition judge (tc : TestCase) (tally : nat * nat) (result : value)
  : Async (nat * nat) :=
  let '(passed, failed) := tally in
  decision ← lift (runner_decision result);
  let approved := truthy (isApproved decision) in
  if shouldPass tc && approved
  then say ("  ✅ PASS: " +:+ name tc);;
       mret (S passed, failed)
  else if negb (shouldPass tc) && negb approved
  then
    let reasons := JS.or (opt_get decision "reasons") (VArr []) in
    hasExpectedReason ←
      match expected_of tc with
      | Some expected => lift (has_reason expected reasons)
      | None => mret true
      end;
    if hasExpectedReason : bool
    then say ("  ✅ PASS: " +:+ name tc +:+ " (correctly rejected)");;
         mret (S passed, failed)
    else say ("  ⚠️  PARTIAL: " +:+ name tc +:+ " (rejected but wrong reason)");;
         say ("    Expected: " +:+ expected_text tc);;
         got ← lift (codes_text reasons);
         say ("    Got: " +:+ got);;
         mret (S passed, failed)
  else say ("  ❌ FAIL: " +:+ name tc);;
       say ("    Expected: " +:+ verdict (shouldPass tc));;
       say ("    Got: " +:+ verdict approved);;
       when (truthy (opt_get decision "reasons"))
         (text ← lift (reasons_text (field decision "reasons"));
          say ("    Reasons: " +:+ text));;
       mret (passed, S failed).

(** The [catch] of a turn. *)
Definition case_error (tc : TestCase) (tally : nat * nat) (error : exn)
  : Async (nat * nat) :=
  say ("  ❌ ERROR: " +:+ name tc);;
  say ("    Error: " +:+ exn_message error);;
  mret (fst tally, S (snd tally)).

(** One turn of the loop. *)
Definition run_case (client : APortClient) (policy agentId : value)
    (tc : TestCase) (tally : nat * nat) : Async (nat * nat) :=
  try_catch
    (say ("Testing: " +:+ name tc);;
     result ← verify client policy agentId (context tc);
     judge tc tally result)
    (case_error tc tally).

(** The [for ... of] loop. *)
Fixpoint run_cases (client : APortClient) (policy agentId : value)
    (cases : list TestCase) (tally : nat * nat) : Async (nat * nat) :=
  match cases with
  | [] => mret tally
  | tc :: rest =>
      tally' ← run_case client policy agentId tc tally;
      run_cases client policy agentId rest tally'
  end.

End Runner.

(** ** The Express template: [requirePolicy] and its mock client

    The outcome of the middleware is the response it sends or the call of
    [next]; the diagnostics it writes to the console are not recorded. *)
Module Express.

#[global] Instance completion_ret : MRet completion := fun A a => Normal a.

#[global] Instance completion_bind : MBind completion :=
  fun A B k c =>
    match c with
    | Normal a => k a
    | Throw e => Throw e
    | Exit code => Exit code
    end.

(** The request as the middleware reads it: the part the extraction needs,
    and [req.method], [req.path], [req.get("User-Agent")] and [req.ip]. *)
Record Req := {
  ex_request : Middleware.ExpressRequest;
  ex_method : value;
  ex_path : value;
  ex_userAgent : value;
  ex_ip : value;
}.

(** [res.status(code).json(body)], or [next()] with [req.aport] set. *)
Inductive outcome : Type :=
| Respond (code : Z) (body : value)
| Next (aport : value).

(** The fields [...v] contributes to an object literal. *)
Definition spread (v : value) : list (string * value) :=
  match v with
  | VObj fields => fields
  | VArr items => imap (fun i x => (pretty i, x)) items
  | VStr s => imap (fun i c => (pretty i, VStr (String c ""))) (String.list_ascii_of_string s)
  | _ => []
  end.

(** The third argument of [client.verify].  The spread fields are listed
    first, so that a read finds them before the fixed fields they
    override. *)
Definition verify_argument (req : Req) (extra : value) : value :=
  VObj [("context",
         VObj (spread extra ++
               [("method", ex_method req);
                ("path", ex_path req);
                ("userAgent", ex_userAgent req);
                ("ip", ex_ip req)]))].

(** [MockAPortClient.verify]. *)
Definition mock_verify (policy agentId options : value) : completion value :=
  Normal (VObj [("verified", VBool true);
                ("passport",
                 VObj [("agentId", agentId);
                       ("capabilities", VArr [VStr "read"; VStr "write"]);
                       ("limits", VObj [("requests", VNum 1000);
                                        ("period", VStr "1h")])]);
                ("policy", policy);
                ("message", VStr "Mock verification successful")]).

Definition agent_id_required : value :=
  VObj [("error", VStr "Agent ID required");
        ("message", VStr "Agent ID must be provided in headers, query, or body")].

Definition verification_error : value :=
  VObj [("error", VStr "Verification error");
        ("message", VStr "Internal verification error")].

(** The [try] block of the middleware. *)
Definition attempt (verify : value -> value -> value -> completion value)
    (policy middlewareOptions : value) (req : Req) : completion outcome :=
  agentId ← Middleware.extractAgentId (ex_request req) middlewareOptions;
  if negb (truthy agentId)
  then mret (Respond 400 agent_id_required)
  else
    extra ← get middlewareOptions "context";
    result ← verify policy agentId (verify_argument req extra);
    verified ← get result "verified";
    if negb (truthy verified)
    then mret (Respond 403
                 (VObj [("error", VStr "Verification failed");
                        ("message", JS.or (field result "message")
                                          (VStr "Agent verification failed"));
                        ("details", field result "details")]))
    else mret (Next (VObj [("verified", VBool true);
                           ("passport", field result "passport");
                           ("policy", policy);
                           ("agentId", agentId);
                           ("result", result)])).

(** [middlewareOptions.strict !== false]. *)
Definition is_strict (strict : value) : bool :=
  match strict with
  | VBool false => false
  | _ => true
  end.

(** The middleware [requirePolicy(policy, middlewareOptions)] applied to a
    request, over a client given by its [verify]. *)
Definition requirePolicy_with (verify : value -> value -> value -> completion value)
    (policy middlewareOptions : value) (req : Req) : completion outcome :=
  let middlewareOptions := default_param (VObj []) middlewareOptions in
  match attempt verify policy middlewareOptions req with
  | Throw error =>
      strict ← get middlewareOptions "strict";
      if is_strict strict
      then mret (Respond 500 verification_error)
      else mret (Next (VObj [("verified", VBool false);
                             ("error", VStr (exn_message error))]))
  | done => done
  end.

(** The middleware as the template builds it, over its mock client. *)
Definition requirePolicy : value -> value -> Req -> completion outcome :=
  requirePolicy_with mock_verify.

End Express.

(** ** The Next.js template: [middleware] and its mock client *)
Module NextJS.

(** The request beyond its headers and query: the path, the method and
    [request.ip]. *)
Record Incoming := {
  nx_request : Middleware.NextRequest;
  pathname : string;
  nx_method : string;
  nx_ip : value;
}.

(** [NextResponse.json(body, { status })], or [NextResponse.next()] with
    the headers set on it, in the order they were set. *)
Inductive response : Type :=
| Json (status : Z) (body : value)
| Continue (headers : list (string * string)).

(** What surrounds the middleware: [process.env.NODE_ENV], the global
    [NODE_ENV], the [verify] of the SDK client when the SDK is installed,
    the clock of the mock, and the encoding of a passport for its header
    (its JSON text in base64, or the empty string where no encoder
    exists). *)
Record Surroundings := {
  NODE_ENV : option string;
  global_NODE_ENV : value;
  sdk_verify : option (value -> value -> value -> completion value);
  now : string;
  encode : value -> string;
}.

(** [MockAPortClient.verify]. *)
Definition mock_verify (now : string) (policy agentId context : value) : completion value :=
  match agentId with
  | VStr "test-agent-123" =>
      Normal (VObj [("verified", VBool true);
                    ("passport",
                     VObj [("agent_id", agentId);
                           ("capabilities", VArr [VStr "payments.refund";
                                                  VStr "payments.transfer"]);
                           ("limits", VObj [("refund_amount_max_per_tx", VNum 1000);
                                            ("transfer_amount_max_per_tx", VNum 5000)]);
                           ("metadata", VObj [("verified_at", VStr now);
                                              ("policy", policy)])]);
                    ("message", VStr "Agent verified successfully")])
  | _ =>
      Normal (VObj [("verified", VBool false);
                    ("message", VStr "Agent verification failed");
                    ("details", VObj [("error", VStr "Invalid agent ID")])])
  end.

(** The [client] constant: the SDK client in production, the mock
    otherwise; in production without the SDK the client is [undefined]. *)
Definition client_verify (s : Surroundings) (policy agentId context : value)
  : completion value :=
  match NODE_ENV s with
  | Some "production" =>
      match sdk_verify s with
      | Some verify => verify policy agentId context
      | None => Throw (TypeError "Cannot read properties of undefined (reading 'verify')")
      end
  | _ => mock_verify (now s) policy agentId context
  end.

Definition skipped (path : string) : bool :=
  is_prefix "/_next" path
  || is_prefix "/favicon.ico" path
  || String.eqb path "/"
  || is_prefix "/api/public" path.

(** The policy of a route. *)
Definition route_policy (path : string) : string :=
  if is_prefix "/api/admin" path then "admin.access.v1"
  else if is_prefix "/api/payments/refund" path then "payments.refund.v1"
  else if is_prefix "/api/payments/transfer" path then "payments.transfer.v1"
  else "default.access.v1".

Definition isDev (s : Surroundings) : bool :=
  match NODE_ENV s with
  | Some "development" => true
  | _ => match global_NODE_ENV s with
         | VStr "development" => true
         | _ => false
         end
  end.

Definition verify_argument (request : Incoming) : value :=
  VObj [("context",
         VObj [("method", VStr (nx_method request));
               ("path", VStr (pathname request));
               ("userAgent", Middleware.headers_get (nx_request request) "user-agent");
               ("ip", JS.or (JS.or (nx_ip request)
                                   (Middleware.headers_get (nx_request request)
                                      "x-forwarded-for"))
                            (VStr "unknown"))])].

(** The [try] block of the middleware, for the agent id found. *)
Definition attempt (s : Surroundings) (request : Incoming) (agentId : value)
  : completion response :=
  let policy := route_policy (pathname request) in
  result ← client_verify s (VStr policy) agentId (verify_argument request);
  verified ← get result "verified";
  if negb (truthy verified)
  then mret (Json 403
               (VObj [("error", VStr "Verification failed");
                      ("message", JS.or (field result "message")
                                        (VStr "Agent verification failed"));
                      ("details", field result "details")]))
  else
    let passport := field result "passport" in
    mret (Continue
            ([("x-aport-verified", "true");
              ("x-aport-agent-id", to_string agentId);
              ("x-aport-policy", policy)]
             ++ (if truthy passport && negb (String.eqb (encode s passport) "")
                 then [("x-aport-passport", encode s passport)]
                 else []))).

(** [middleware(request)]. *)
Definition middleware (s : Surroundings) (request : Incoming) : completion response :=
  if skipped (pathname request)
  then Normal (Continue [])
  else
    let agentId := Middleware.middleware_agentId (nx_request request) in
    if negb (truthy agentId)
    then Normal (Json 400
                   (VObj [("error", VStr "Agent ID required");
                          ("message", VStr "Please provide agent ID in X-Agent-ID header or agent_id query parameter")]))
    else
      match attempt s request agentId with
      | Throw error =>
          if isDev s
          then Normal (Continue [])
          else Normal (Json 500
                         (VObj [("error", VStr "Verification error");
                                ("message", VStr "Internal verification error")]))
      | done => done
      end.

End NextJS.

(** ** Notions used to state the further properties *)
Module Expect.

(** The number of requests a call may make. *)
Definition request_budget (c : call) : nat :=
  match c with
  | CallGetPassport _ => 2
  | _ => 1
  end.

(** What a call needs, beyond a successful answer, to return it. *)
Definition returns_answer (this : APortClient) (c : call) (r : Response) : Prop :=
  match c with
  | CallGetPassport _ =>
      truthy (data r) = true /\ truthy (field (data r) "agent_id") = true
  | CallCreatePassport _ => truthy (apiKey this) = true
  | _ => True
  end.

(** The command lines [aport verify -a A -p P -c C -k K] and
    [aport policy -a A -p P -c C -k K]. *)
Definition verify_args (agentId policy context key : value) : VerifyArgs :=
  {| posAgentId := VUndefined; posPolicy := VUndefined; posContext := VUndefined;
     opt_agentId := agentId; opt_policy := policy; opt_context := context;
     opt_interactive := VUndefined;
     program_apiKey := key;
     answers := (VUndefined, VUndefined, VUndefined) |}.

Definition policy_args (agentId policy context key : value) : PolicyArgs :=
  {| pol_agentId := agentId; pol_policy := policy; pol_context := context;
     pol_apiKey := key |}.

(** A computation whose only way to end the process is [process.exit(1)]. *)
Definition exits_one {A} (m : Async A) : Prop :=
  forall be w code, fst (m be w) = Exit code -> code = 1.

(** The agent the [get-passport] command asks for. *)
Definition asked_agent (args : GetPassportArgs) : value :=
  if truthy (gp_interactive args) then gp_answer args else gp_agentId args.

(** A text field of a reason: a string, or missing. *)
Definition text_or_missing (v : value) : Prop :=
  v = VUndefined \/ v = VNull \/ exists s, v = VStr s.

(** A reason as the service sends it: an object whose [code] and [message]
    are strings, when present. *)
Definition plain_reason (r : value) : Prop :=
  exists fields,
    r = VObj fields
    /\ text_or_missing (lookup_field fields "code")
    /\ text_or_missing (lookup_field fields "message").

(** A request of the Express template's tests, and what the middleware
    over the mock client attaches to it. *)
Definition refund_req : Express.Req :=
  {| Express.ex_request :=
       {| Middleware.headers := [("x-agent-id", VStr "agt_test123")];
          Middleware.query := [];
          Middleware.body := VObj [("amount", VNum 100)] |};
     Express.ex_method := VStr "POST";
     Express.ex_path := VStr "/refund";
     Express.ex_userAgent := VUndefined;
     Express.ex_ip := VStr "::1" |}.

Definition refund_policy : value := VStr "finance.payment.refund.v1".

Definition refund_aport : value :=
  Eval vm_compute in
    match Express.requirePolicy refund_policy VUndefined refund_req with
    | Normal (Express.Next aport) => aport
    | _ => VUndefined
    end.


(** The line that ends a verification step of the demo, and the one that
    ends its passport step. *)
Definition verify_step_line (line : string) : Prop :=
  line = "✅ Verified" \/ line = "❌ Failed"
  \/ exists message, line = "❌ Error: " +:+ message.

Definition passport_step_line (pr : Printer) (line : string) : Prop :=
  (exists name, line = "✅ Passport retrieved: " +:+ shown pr name)
  \/ exists message, line = "❌ Error: " +:+ message.

(** A printer for sample runs: it shows a value by its string form. *)
Definition plain_printer : Printer :=
  {| JSON_stringify := fun v => match v with
                                | VUndefined => VUndefined
                                | _ => VStr (to_string v)
                                end;
     inspect := to_string |}.

End Expect.
Export Expect.

(** * Properties *)

(** ** The monad and the transport *)

Ltac unfold_async :=
  unfold mbind, mret, Async_bind, Async_ret, try_catch, throw, lift,
    process_exit, axios_post, axios_get, send in *.

Lemma send_resolved inst m url params body be w r :
  be (requests w) (request_of inst m url params body) = Resolved r ->
  send inst m url params body be w =
  (Normal r, sent w (request_of inst m url params body)).
Proof. intros H. unfold send. now rewrite H. Qed.

Lemma send_rejected inst m url params body be w e :
  be (requests w) (request_of inst m url params body) = Rejected e ->
  send inst m url params body be w =
  (Throw e, sent w (request_of inst m url params body)).
Proof. intros H. unfold send. now rewrite H. Qed.

(** ** [verify] *)

(** Whatever its arguments and whatever the transport answers, [verify]
    issues its one request. *)
Lemma verify_world this policy agentId context be w :
  snd (verify this policy agentId context be w) =
  sent w (verify_request this policy agentId context).
Proof.
  unfold verify, verify_request. unfold_async.
  destruct (be _ _) as [r | e]; simpl; [reflexivity |].
  destruct (exn_response e) as [resp |]; simpl; [| reflexivity].
  destruct (get (data resp) "message"); reflexivity.
Qed.




(** A response whose body is [null] makes the [catch] block itself throw. *)
Lemma verify_rejected_null_body this policy agentId context be w resp msg :
  be (requests w) (verify_request this policy agentId context) =
    Rejected (AxiosError (Some resp) msg) ->
  data resp = VNull ->
  fst (verify this policy agentId context be w) =
  Throw (TypeError "Cannot read properties of null (reading 'message')").
Proof.
  intros H Hd. unfold verify, verify_request in *. unfold_async.
  rewrite H. simpl. now rewrite Hd.
Qed.

(** C9: [verifyPolicy] and [verify] are the same operation: for every
    policy, agent, context, transport and starting world they end the same
    way and leave the same world. *)
Theorem verifyPolicy_same_as_verify this policy agentId context be w :
  verifyPolicy this policy agentId context be w =
  verify this policy agentId context be w.
Proof.
  unfold verifyPolicy, verify. unfold_async.
  destruct (be _ _) as [r | e]; [reflexivity |].
  destruct (exn_response e); reflexivity.
Qed.

(** ** The [verify] action of the CLI *)

Ltac unfold_cli :=
  unfold report, report_failed, report_approved, on_error, when, say,
    complain, print in *.

(** The constructor never throws on the object literal the action passes. *)
Lemma constructor_object fields env :
  exists this, constructor (VObj fields) env = Normal this.
Proof. unfold constructor. simpl. eauto. Qed.

(** Without an agent id or without a policy the action stops before the
    client is called. *)
Lemma verify_action_requires_ids host env args be w :
  truthy (settle_args args).1.1 && truthy (settle_args args).1.2 = false ->
  verify_action host env args be w =
  (Exit 1, printed w Stderr "❌ Agent ID and policy are required").
Proof.
  intros H. unfold verify_action.
  destruct (constructor_object [("apiKey", program_apiKey args)] env) as [this ->].
  destruct (settle_args args) as [[agentId policy] context]. simpl in H.
  unfold_cli. unfold_async.
  destruct (truthy agentId), (truthy policy); try discriminate; reflexivity.
Qed.

(** With both, and a context that parses, the action is the call of
    [verify] followed by the report, under the outer [catch]. *)
Lemma verify_action_run host env args be w this agentId policy context contextObj :
  constructor (VObj [("apiKey", program_apiKey args)]) env = Normal this ->
  settle_args args = (agentId, policy, context) ->
  truthy agentId = true ->
  truthy policy = true ->
  parsed_context host context = Some contextObj ->
  verify_action host env args be w =
  try_catch (result ← verify this policy agentId contextObj;
             report host agentId policy result) on_error be w.
Proof.
  intros Hc Hs Ha Hp Hx. unfold verify_action. rewrite Hc, Hs, Hx.
  unfold when. rewrite Ha, Hp. simpl. unfold_async. reflexivity.
Qed.

(** The decision the action reads from either envelope. *)
Lemma result_decision_shapeA decision :
  truthy decision = true -> result_decision (shapeA decision) = Normal decision.
Proof. intros H. unfold result_decision, shapeA, JS.or. cbn -[truthy]. now rewrite H. Qed.

Lemma result_decision_shapeB decision :
  result_decision (shapeB decision) = Normal decision.
Proof. reflexivity. Qed.

Lemma runner_decision_shapeA decision :
  runner_decision (shapeA decision) = Normal decision.
Proof. reflexivity. Qed.

Lemma runner_decision_shapeB decision :
  truthy decision = true -> runner_decision (shapeB decision) = Normal decision.
Proof. intros H. unfold runner_decision, shapeB. cbn -[truthy]. now rewrite H. Qed.

(** The report reads the result through [result_decision] only. *)
Lemma report_same_decision host agentId policy result1 result2 :
  result_decision result1 = result_decision result2 ->
  report host agentId policy result1 = report host agentId policy result2.
Proof. intros H. unfold report. now rewrite H. Qed.

(** A context that does not parse ends the action before the client is
    called. *)
Lemma verify_action_invalid_context host env args be w agentId policy context :
  settle_args args = (agentId, policy, context) ->
  truthy agentId = true ->
  truthy policy = true ->
  parsed_context host context = None ->
  verify_action host env args be w =
  (Exit 1, printed w Stderr "❌ Invalid JSON context").
Proof.
  intros Hs Ha Hp Hx. unfold verify_action.
  destruct (constructor_object [("apiKey", program_apiKey args)] env) as [this ->].
  rewrite Hs, Hx. unfold when. rewrite Ha, Hp. reflexivity.
Qed.

(** The report does not talk to the network. *)
Lemma report_ignores_backend host agentId policy result be1 be2 w :
  report host agentId policy result be1 w = report host agentId policy result be2 w.
Proof.
  unfold report. unfold_cli. unfold_async.
  destruct (result_decision result) as [decision | |]; try reflexivity.
  destruct (truthy (isApproved decision)); simpl.
  - destruct (truthy (field decision "reasons") &&
              length_gt_zero host (field decision "reasons")); simpl;
      [destruct (reasons_text _) |]; reflexivity.
  - destruct (truthy decision && truthy (field decision "reasons") &&
              length_gt_zero host (field decision "reasons")); simpl;
      [destruct (reasons_text _); simpl |];
      destruct (truthy decision); simpl; try reflexivity;
      destruct (truthy (field decision "assurance_level")); reflexivity.
Qed.

(** No decision in the result: the report is a denial without a reason,
    and the action goes on to its normal end. *)
Lemma report_no_decision host agentId policy result decision be w :
  result_decision result = Normal decision ->
  truthy decision = false ->
  report host agentId policy result be w =
  (Normal tt,
   printed (printed w Stdout "❌ Agent verification failed") Stdout "Reason: Unknown").
Proof.
  intros Hr Hd. unfold report. rewrite Hr. unfold isApproved, JS.and.
  unfold_async. simpl. rewrite Hd. unfold_cli. unfold_async.
  rewrite Hd. reflexivity.
Qed.


Lemma verify_always_resolved this policy agentId context r w :
  verify this policy agentId context (always (Resolved r)) w =
  (Normal (data r), sent w (verify_request this policy agentId context)).
Proof. reflexivity. Qed.

(** Over a transport that answers [r], and with both ids and a context
    that parses, the action is the report on the body of [r], made after the
    one request, under the outer [catch]. *)
Lemma verify_action_answered host env args r w this agentId policy context contextObj :
  constructor (VObj [("apiKey", program_apiKey args)]) env = Normal this ->
  settle_args args = (agentId, policy, context) ->
  truthy agentId = true ->
  truthy policy = true ->
  parsed_context host context = Some contextObj ->
  verify_action host env args (always (Resolved r)) w =
  try_catch (report host agentId policy (data r)) on_error (always (Resolved r))
    (sent w (verify_request this policy agentId contextObj)).
Proof.
  intros Hc Hs Ha Hp Hx.
  rewrite (verify_action_run _ _ _ _ _ _ _ _ _ _ Hc Hs Ha Hp Hx).
  unfold try_catch, mbind, Async_bind. rewrite verify_always_resolved. reflexivity.
Qed.

Lemma try_catch_normal {A} (m : Async A) handler be w a w' :
  m be w = (Normal a, w') -> try_catch m handler be w = (Normal a, w').
Proof. intros H. unfold try_catch. now rewrite H. Qed.

(** On a body that is [null] or [undefined] the report throws at
    [result.data], and the outer [catch] prints the error and exits. *)
Lemma report_null_body host agentId policy result be w :
  nullish result = true ->
  try_catch (report host agentId policy result) on_error be w =
  (Exit 1,
   printed w Stderr ("❌ Error: Cannot read properties of " +:+ to_string result +:+
                     " (reading 'data')")).
Proof.
  intros H. unfold report, result_decision, get. rewrite H.
  destruct result; try discriminate; reflexivity.
Qed.

(** The three runs of the action on an answered request that the claims
    about the parser talk about. *)
Lemma action_no_decision host env args agentId policy context contextObj r w :
  settle_args args = (agentId, policy, context) ->
  truthy agentId = true ->
  truthy policy = true ->
  parsed_context host context = Some contextObj ->
  nullish (data r) = false ->
  truthy (opt_get (field (data r) "data") "decision") = false ->
  truthy (field (data r) "decision") = false ->
  fst (verify_action host env args (always (Resolved r)) w) = Normal tt
  /\ console (snd (verify_action host env args (always (Resolved r)) w)) =
     (console w ++ [(Stdout, "❌ Agent verification failed");
                    (Stdout, "Reason: Unknown")])%list.
Proof.
  intros Hs Ha Hp Hx Hn Ht Hf.
  destruct (constructor_object [("apiKey", program_apiKey args)] env) as [this Hc].
  rewrite (verify_action_answered _ _ _ _ _ _ _ _ _ _ Hc Hs Ha Hp Hx).
  erewrite try_catch_normal.
  2:{ apply report_no_decision with (decision := field (data r) "decision");
        [| assumption].
      unfold result_decision, get. rewrite Hn. unfold JS.or. now rewrite Ht. }
  split; [reflexivity |]. simpl. now rewrite <- app_assoc.
Qed.


Lemma action_null_body host env args agentId policy context contextObj r w :
  settle_args args = (agentId, policy, context) ->
  truthy agentId = true ->
  truthy policy = true ->
  parsed_context host context = Some contextObj ->
  nullish (data r) = true ->
  fst (verify_action host env args (always (Resolved r)) w) = Exit 1
  /\ console (snd (verify_action host env args (always (Resolved r)) w)) =
     (console w ++
      [(Stderr, "❌ Error: Cannot read properties of " +:+ to_string (data r) +:+
                " (reading 'data')")])%list.
Proof.
  intros Hs Ha Hp Hx Hn.
  destruct (constructor_object [("apiKey", program_apiKey args)] env) as [this Hc].
  rewrite (verify_action_answered _ _ _ _ _ _ _ _ _ _ Hc Hs Ha Hp Hx).
  rewrite report_null_body by assumption. split; reflexivity.
Qed.

(** ** The decision parser (C1, C2, C3) *)

(** C1, counterexample: a 200 response without any decision is no failure.
    The parser of the [verify] action yields [undefined], the action prints
    a denial with the reason "Unknown" and ends normally, and the Go printer
    prints a notice and returns.  Moreover the test runners look at the
    top-level [decision] before [data.decision]. *)
Lemma missing_decision_is_no_failure :
  result_decision (VObj []) = Normal VUndefined
  /\ (let out := run (verify_action bare_host ∅
                        (positional (VStr "agt_1") (VStr "payments.refund.v1")))
                     (always (Resolved (ok (VObj [])))) in
      fst out = Normal tt
      /\ console (snd out) = [(Stdout, "❌ Agent verification failed");
                              (Stdout, "Reason: Unknown")])
  /\ Go.printVerificationResult
       {| Go.Data := None; Go.TopDecision := None |} "agt_1" "payments.refund.v1"
     = ["No decision found in response"]
  /\ runner_decision (VObj [("data", VObj [("decision", allow_decision)]);
                            ("decision", deny_decision)])
     = Normal deny_decision.
Proof. repeat split; vm_compute; reflexivity. Qed.

(** C1, as the code has it: the [verify] action reads the decision of a
    body that is not [null] as [data.decision] when that is truthy, whatever
    the top-level field holds, and as the top-level [decision] otherwise.
    When that is missing too no error is raised: on such an answer the
    action prints a denial with the reason "Unknown" and ends normally.  On
    a body that is [null] reading [result.data] throws, and the action
    prints that error and exits with status 1.  The Go example selects in
    the same order between its two pointers and prints a notice when both
    are nil. *)
Theorem decision_fallback_order :
  (forall result,
      nullish result = false ->
      truthy (opt_get (field result "data") "decision") = true ->
      result_decision result = Normal (opt_get (field result "data") "decision"))
  /\ (forall result,
      nullish result = false ->
      truthy (opt_get (field result "data") "decision") = false ->
      result_decision result = Normal (field result "decision"))
  /\ (forall host env args agentId policy context contextObj r w,
      settle_args args = (agentId, policy, context) ->
      truthy agentId = true ->
      truthy policy = true ->
      parsed_context host context = Some contextObj ->
      nullish (data r) = false ->
      truthy (opt_get (field (data r) "data") "decision") = false ->
      truthy (field (data r) "decision") = false ->
      fst (verify_action host env args (always (Resolved r)) w) = Normal tt
      /\ console (snd (verify_action host env args (always (Resolved r)) w)) =
         (console w ++ [(Stdout, "❌ Agent verification failed");
                        (Stdout, "Reason: Unknown")])%list)
  /\ (forall host env args agentId policy context contextObj r w,
      settle_args args = (agentId, policy, context) ->
      truthy agentId = true ->
      truthy policy = true ->
      parsed_context host context = Some contextObj ->
      nullish (data r) = true ->
      fst (verify_action host env args (always (Resolved r)) w) = Exit 1
      /\ console (snd (verify_action host env args (always (Resolved r)) w)) =
         (console w ++
          [(Stderr, "❌ Error: Cannot read properties of " +:+ to_string (data r) +:+
                    " (reading 'data')")])%list)
  /\ (forall result decision,
      Go.Data result = Some {| Go.DataDecision := Some decision |} ->
      Go.selected result = Some decision)
  /\ (forall result,
      Go.Data result = None \/ Go.Data result = Some {| Go.DataDecision := None |} ->
      Go.selected result = Go.TopDecision result)
  /\ (forall result agentID policy,
      Go.selected result = None ->
      Go.printVerificationResult result agentID policy =
      ["No decision found in response"]).
Proof.
  assert (Hres : forall result, nullish result = false ->
            result_decision result =
            Normal (JS.or (opt_get (field result "data") "decision")
                          (field result "decision"))).
  { intros result H. unfold result_decision, get. now rewrite H. }
  split; [| split; [| split; [| split; [| split; [| split]]]]].
  - intros result Hn Ht. rewrite Hres by assumption. unfold JS.or. now rewrite Ht.
  - intros result Hn Ht. rewrite Hres by assumption. unfold JS.or. now rewrite Ht.
  - intros. eapply action_no_decision; eassumption.
  - intros. eapply action_null_body; eassumption.
  - intros result decision H. unfold Go.selected. now rewrite H.
  - intros result [H | H]; unfold Go.selected; now rewrite H.
  - intros result agentID policy H. unfold Go.printVerificationResult. now rewrite H.
Qed.

Lemma decision_fallback_order_witness :
  result_decision (VObj [("data", VObj [("decision", allow_decision)]);
                         ("decision", deny_decision)]) = Normal allow_decision
  /\ result_decision (shapeB deny_decision) = Normal deny_decision
  /\ (fst (verify_action bare_host ∅
             (positional (VStr "agt_1") (VStr "payments.refund.v1"))
             (always (Resolved (ok (VObj [])))) new_world) = Normal tt
      /\ console (snd (verify_action bare_host ∅
             (positional (VStr "agt_1") (VStr "payments.refund.v1"))
             (always (Resolved (ok (VObj [])))) new_world)) =
         [(Stdout, "❌ Agent verification failed"); (Stdout, "Reason: Unknown")])
  /\ (fst (verify_action bare_host ∅
             (positional (VStr "agt_1") (VStr "payments.refund.v1"))
             (always (Resolved (ok VNull))) new_world) = Exit 1
      /\ console (snd (verify_action bare_host ∅
             (positional (VStr "agt_1") (VStr "payments.refund.v1"))
             (always (Resolved (ok VNull))) new_world)) =
         [(Stderr, "❌ Error: Cannot read properties of null (reading 'data')")])
  /\ Go.selected
       {| Go.Data := Some {| Go.DataDecision := Some
                               {| Go.Allow := true; Go.DecisionID := "dec_1";
                                  Go.ExpiresIn := 3600; Go.Reasons := [] |} |};
          Go.TopDecision := Some
                              {| Go.Allow := false; Go.DecisionID := "dec_2";
                                 Go.ExpiresIn := 60; Go.Reasons := [] |} |}
     = Some {| Go.Allow := true; Go.DecisionID := "dec_1";
               Go.ExpiresIn := 3600; Go.Reasons := [] |}
  /\ Go.selected {| Go.Data := None; Go.TopDecision := None |} = None
  /\ Go.printVerificationResult
       {| Go.Data := Some {| Go.DataDecision := None |}; Go.TopDecision := None |}
       "agt_1" "payments.refund.v1"
     = ["No decision found in response"].
Proof.
  destruct decision_fallback_order as (HA & HB & HN & HZ & HGA & HGB & HGN).
  split; [| split; [| split; [| split; [| split; [| split]]]]].
  - apply (HA (VObj [("data", VObj [("decision", allow_decision)]);
                     ("decision", deny_decision)])); reflexivity.
  - apply (HB (shapeB deny_decision)); reflexivity.
  - apply (HN bare_host ∅ (positional (VStr "agt_1") (VStr "payments.refund.v1"))
              (VStr "agt_1") (VStr "payments.refund.v1") VUndefined (VObj [])
              (ok (VObj [])) new_world); reflexivity.
  - apply (HZ bare_host ∅ (positional (VStr "agt_1") (VStr "payments.refund.v1"))
              (VStr "agt_1") (VStr "payments.refund.v1") VUndefined (VObj [])
              (ok VNull) new_world); reflexivity.
  - apply HGA. reflexivity.
  - apply (HGB {| Go.Data := None; Go.TopDecision := None |}). left. reflexivity.
  - apply HGN. reflexivity.
Defined.




(** C3, counterexample: [verify] hands back the body it received, so the
    same decision in the two envelopes gives two different results. *)
Lemma verify_result_depends_on_envelope :
  fst (run (verify anonymous (VStr "payments.refund.v1") (VStr "agt_1") VUndefined)
           (always (Resolved (ok (shapeA allow_decision)))))
  <> fst (run (verify anonymous (VStr "payments.refund.v1") (VStr "agt_1") VUndefined)
              (always (Resolved (ok (shapeB allow_decision))))).
Proof. vm_compute. discriminate. Qed.

(** C3, as the code has it: the results of [verify] differ with the
    envelope, but what its callers make of them does not.  For the same
    (truthy) decision in shape A and in shape B the [verify] action of the
    CLI ends the same way with the same console output and the same
    requests, for every command line; both parsers extract that decision;
    and the Go printer prints the same lines. *)
Theorem envelope_independent_outcome :
  (forall host env args decision r1 r2 w,
      truthy decision = true ->
      data r1 = shapeA decision ->
      data r2 = shapeB decision ->
      verify_action host env args (always (Resolved r1)) w =
      verify_action host env args (always (Resolved r2)) w)
  /\ (forall decision,
      truthy decision = true ->
      result_decision (shapeA decision) = Normal decision
      /\ result_decision (shapeB decision) = Normal decision
      /\ runner_decision (shapeA decision) = Normal decision
      /\ runner_decision (shapeB decision) = Normal decision)
  /\ (forall decision agentID policy,
      Go.printVerificationResult
        {| Go.Data := Some {| Go.DataDecision := Some decision |};
           Go.TopDecision := None |} agentID policy =
      Go.printVerificationResult
        {| Go.Data := None; Go.TopDecision := Some decision |} agentID policy).
Proof.
  split; [| split].
  - intros host env args decision r1 r2 w Hd H1 H2.
    destruct (constructor_object [("apiKey", program_apiKey args)] env) as [this Hc].
    destruct (settle_args args) as [[agentId policy] context] eqn:Hs.
    destruct (truthy agentId && truthy policy) eqn:Hids.
    + apply andb_true_iff in Hids as [Ha Hp].
      destruct (parsed_context host context) as [contextObj |] eqn:Hx.
      * rewrite !(verify_action_run _ _ _ _ _ _ _ _ _ _ Hc Hs Ha Hp Hx).
        unfold try_catch, mbind, Async_bind.
        rewrite !verify_always_resolved, H1, H2.
        rewrite (report_same_decision _ _ _ (shapeA decision) (shapeB decision))
          by (now rewrite result_decision_shapeA, result_decision_shapeB).
        now rewrite (report_ignores_backend _ _ _ _ (always (Resolved r1))
                       (always (Resolved r2))).
      * now rewrite !(verify_action_invalid_context _ _ _ _ _ _ _ _ Hs Ha Hp Hx).
    + rewrite !verify_action_requires_ids; [reflexivity | |]; now rewrite Hs.
  - intros decision Hd. split; [| split; [| split]].
    + now apply result_decision_shapeA.
    + apply result_decision_shapeB.
    + apply runner_decision_shapeA.
    + now apply runner_decision_shapeB.
  - reflexivity.
Qed.

Lemma envelope_independent_outcome_witness :
  verify_action bare_host ∅ (positional (VStr "agt_1") (VStr "payments.refund.v1"))
    (always (Resolved (ok (shapeA deny_decision)))) new_world =
  verify_action bare_host ∅ (positional (VStr "agt_1") (VStr "payments.refund.v1"))
    (always (Resolved (ok (shapeB deny_decision)))) new_world
  /\ (result_decision (shapeA allow_decision) = Normal allow_decision
      /\ result_decision (shapeB allow_decision) = Normal allow_decision
      /\ runner_decision (shapeA allow_decision) = Normal allow_decision
      /\ runner_decision (shapeB allow_decision) = Normal allow_decision).
Proof.
  destruct envelope_independent_outcome as (H1 & H2 & _).
  split.
  - apply (H1 bare_host ∅ (positional (VStr "agt_1") (VStr "payments.refund.v1"))
              deny_decision); reflexivity.
  - apply H2. reflexivity.
Defined.

(** ** Validation before the call (C4) *)




(** ** Failures of [verify] (C6) *)




(** ** Passports (C7, C8) *)

(** C7, counterexample: with a credential configured, a probe that is
    answered without an [agent_id] ends [getPassport] at once; the direct
    lookup, which the transport would have answered with the passport, is
    never requested. *)
Lemma no_fallback_after_empty_probe :
  run (getPassport keyed (VStr "agt_1"))
      (scripted [Resolved (ok (VObj []));
                 Resolved (ok (VObj [("agent_id", VStr "agt_1")]))])
  = (Throw (Error "Unable to retrieve passport information"),
     {| requests := [probe_request keyed (VStr "agt_1")]; console := [] |}).
Proof. reflexivity. Qed.

(** C7, as the code has it: [getPassport] first sends the probe, a GET of
    [/api/verify/{agentId}] with the fixed policy [code.repository.merge.v1].
    A probe answered with an [agent_id] gives the passport.  A probe
    answered without one fails with "Unable to retrieve passport
    information", whether or not a credential is configured, and nothing
    else is requested.  Only a probe that is rejected leads on: without a
    credential to the "API key required" error, with one to the direct lookup
    [/api/passports/{agentId}], whose answer is the passport. *)
Theorem getPassport_paths :
  (forall this agentId be w r,
      be (requests w) (probe_request this agentId) = Resolved r ->
      truthy (data r) = true ->
      truthy (field (data r) "agent_id") = true ->
      getPassport this agentId be w =
      (Normal (data r), sent w (probe_request this agentId)))
  /\ (forall this agentId be w r,
      be (requests w) (probe_request this agentId) = Resolved r ->
      truthy (data r) && truthy (field (data r) "agent_id") = false ->
      getPassport this agentId be w =
      (Throw (Error "Unable to retrieve passport information"),
       sent w (probe_request this agentId)))
  /\ (forall this agentId be w e,
      be (requests w) (probe_request this agentId) = Rejected e ->
      truthy (apiKey this) = false ->
      getPassport this agentId be w =
      (Throw (Error getPassport_key_required),
       sent w (probe_request this agentId)))
  /\ (forall this agentId be w e r,
      be (requests w) (probe_request this agentId) = Rejected e ->
      truthy (apiKey this) = true ->
      be (requests w ++ [probe_request this agentId])%list
         (passport_request this agentId) = Resolved r ->
      getPassport this agentId be w =
      (Normal (data r),
       sent (sent w (probe_request this agentId)) (passport_request this agentId))).
Proof.
  split; [| split; [| split]].
  - intros this agentId be w r Hbe Hd Ha.
    unfold getPassport, probe_request in *. unfold_async.
    rewrite Hbe. unfold JS.and. now rewrite Hd, Ha.
  - intros this agentId be w r Hbe Hd.
    unfold getPassport, probe_request in *. unfold_async.
    rewrite Hbe. unfold JS.and.
    destruct (truthy (data r)) eqn:H1; simpl in Hd.
    + now rewrite Hd.
    + now rewrite H1.
  - intros this agentId be w e Hbe Hk.
    unfold getPassport, probe_request in *. unfold_async.
    rewrite Hbe. now rewrite Hk.
  - intros this agentId be w e r Hbe Hk Hbe2.
    unfold getPassport, probe_request, passport_request in *. unfold_async.
    rewrite Hbe. rewrite Hk. simpl. rewrite Hbe2. reflexivity.
Qed.

Lemma getPassport_paths_witness :
  run (getPassport anonymous (VStr "agt_1"))
      (always (Resolved (ok (VObj [("agent_id", VStr "agt_1")]))))
  = (Normal (VObj [("agent_id", VStr "agt_1")]),
     sent new_world (probe_request anonymous (VStr "agt_1")))
  /\ run (getPassport anonymous (VStr "agt_1")) (always (Resolved (ok (VObj []))))
     = (Throw (Error "Unable to retrieve passport information"),
        sent new_world (probe_request anonymous (VStr "agt_1")))
  /\ run (getPassport anonymous (VStr "agt_1")) (always (axios_timeout 10000))
     = (Throw (Error getPassport_key_required),
        sent new_world (probe_request anonymous (VStr "agt_1")))
  /\ run (getPassport keyed (VStr "agt_1"))
         (scripted [axios_settle (agent_not_found 404 "Not Found");
                    Resolved (ok (VObj [("name", VStr "Refund bot")]))])
     = (Normal (VObj [("name", VStr "Refund bot")]),
        sent (sent new_world (probe_request keyed (VStr "agt_1")))
             (passport_request keyed (VStr "agt_1"))).
Proof.
  destruct getPassport_paths as (H1 & H2 & H3 & H4).
  split; [| split; [| split]].
  - apply (H1 anonymous (VStr "agt_1") _ new_world
              (ok (VObj [("agent_id", VStr "agt_1")]))); reflexivity.
  - apply (H2 anonymous (VStr "agt_1") _ new_world (ok (VObj []))); reflexivity.
  - apply (H3 anonymous (VStr "agt_1") _ new_world
              (AxiosError None "timeout of 10000ms exceeded")); reflexivity.
  - apply (H4 keyed (VStr "agt_1") _ new_world
              (AxiosError (Some (agent_not_found 404 "Not Found"))
                          "Request failed with status code 404")
              (ok (VObj [("name", VStr "Refund bot")]))); reflexivity.
Defined.




(** ** The credential (C10) *)

Lemma client_requests_refl this w : client_requests this w w.
Proof. exists []. split; [now rewrite app_nil_r | constructor]. Qed.

Lemma client_requests_sent this w w' m url params body :
  client_requests this w w' ->
  client_requests this w (sent w' (request_of (client this) m url params body)).
Proof.
  intros (new & Hreq & Hall).
  exists (new ++ [request_of (client this) m url params body])%list. split.
  - unfold sent. simpl. rewrite Hreq. now rewrite app_assoc.
  - apply Forall_app. split; [assumption |]. repeat constructor.
Qed.

Ltac split_answers be :=
  repeat match goal with
    | |- context [be ?h ?r] => destruct (be h r); cbn [fst snd]
    | |- context [exn_response ?e] => destruct (exn_response e); cbn [fst snd]
    | |- context [match get ?v ?k with _ => _ end] => destruct (get v k); cbn [fst snd]
    | |- context [truthy ?v] => destruct (truthy v); cbn [fst snd negb]
    end.

Ltac close_requests :=
  repeat first [ apply client_requests_refl | apply client_requests_sent ].

(** Every request of every method goes through the instance, with the
    headers fixed at construction. *)
Lemma invoke_requests this c be w :
  client_requests this w (snd (invoke this c be w)).
Proof.
  destruct c; cbn [invoke];
    unfold verify, verifyPolicy, createPassport, getPassport, suspendPassport,
      getPolicyPack, listPolicyPacks, rethrow, JS.and;
    unfold_async; split_answers be; close_requests.
Qed.

Lemma constructor_headers options env this :
  constructor options env = Normal this ->
  inst_headers (client this) = default_headers (apiKey this).
Proof.
  unfold constructor. destruct (get _ "apiKey"); intros H; inversion H.
  reflexivity.
Qed.

Lemma default_headers_authorization key :
  default_headers key !! "Authorization" =
  if truthy key then Some ("Bearer " +:+ to_string key) else None.
Proof.
  unfold default_headers. rewrite lookup_insert_ne by discriminate.
  destruct (truthy key).
  - apply lookup_singleton_eq.
  - apply lookup_empty.
Qed.

(** C10, counterexample: the constructor reads [options.apiKey], and its
    default replaces an omitted argument only, so that [new APortClient(null)]
    throws although no key is configured. *)
Lemma constructor_throws_on_null_options :
  constructor VNull ∅ =
  Throw (TypeError "Cannot read properties of null (reading 'apiKey')").
Proof. reflexivity. Qed.

(** C10, as the code has it: with the options omitted or any value but
    [null], constructing a client when no key is configured, neither in
    [options.apiKey] nor in [APORT_API_KEY], succeeds: the constructor
    returns a client without a credential, and the unit test's expectation
    that it throws "APORT_API_KEY environment variable is required" does not
    hold.  The credential of a constructed client is [options.apiKey] or
    else [APORT_API_KEY], and the headers of its instance, hence those of
    the request of [verify] and of every request of every method, hold
    [Authorization: Bearer <credential>] when that credential is truthy and
    no [Authorization] at all when it is not. *)
Theorem client_without_key :
  (forall options env,
      options <> VNull ->
      truthy (field (default_param (VObj []) options) "apiKey") = false ->
      truthy (env_get env "APORT_API_KEY") = false ->
      exists this,
        constructor options env = Normal this
        /\ truthy (apiKey this) = false
        /\ bearer this = None
        /\ toThrow (constructor options env)
             "APORT_API_KEY environment variable is required" = false)
  /\ (forall options env this,
      constructor options env = Normal this ->
      let key := JS.or (field (default_param (VObj []) options) "apiKey")
                       (env_get env "APORT_API_KEY") in
      apiKey this = key
      /\ inst_headers (client this) !! "Authorization" =
         (if truthy key then Some ("Bearer " +:+ to_string key) else None))
  /\ (forall options env this policy agentId context be w,
      constructor options env = Normal this ->
      let key := JS.or (field (default_param (VObj []) options) "apiKey")
                       (env_get env "APORT_API_KEY") in
      exists r,
        snd (verify this policy agentId context be w) = sent w r
        /\ req_headers r !! "Authorization" =
           (if truthy key then Some ("Bearer " +:+ to_string key) else None))
  /\ (forall options env this c be w,
      constructor options env = Normal this ->
      let key := JS.or (field (default_param (VObj []) options) "apiKey")
                       (env_get env "APORT_API_KEY") in
      exists new,
        requests (snd (invoke this c be w)) = (requests w ++ new)%list
        /\ Forall (fun r =>
                     req_headers r !! "Authorization" =
                     (if truthy key then Some ("Bearer " +:+ to_string key) else None))
                  new).
Proof.
  assert (Hkey : forall options env this,
             constructor options env = Normal this ->
             apiKey this = JS.or (field (default_param (VObj []) options) "apiKey")
                                 (env_get env "APORT_API_KEY")).
  { intros options env this. unfold constructor, get.
    destruct (nullish (default_param (VObj []) options)); intros H; inversion H.
    reflexivity. }
  assert (Hhead : forall options env this,
             constructor options env = Normal this ->
             inst_headers (client this) !! "Authorization" =
             (if truthy (JS.or (field (default_param (VObj []) options) "apiKey")
                               (env_get env "APORT_API_KEY"))
              then Some ("Bearer " +:+
                         to_string (JS.or (field (default_param (VObj []) options) "apiKey")
                                          (env_get env "APORT_API_KEY")))
              else None)).
  { intros options env this Hc.
    rewrite (constructor_headers _ _ _ Hc), default_headers_authorization.
    now rewrite (Hkey _ _ _ Hc). }
  split; [| split; [| split]].
  - intros options env Ho Hopt Henv.
    assert (Hn : nullish (default_param (VObj []) options) = false)
      by (destruct options; try reflexivity; contradiction).
    unfold constructor, get. rewrite Hn.
    eexists. split; [reflexivity |].
    assert (Hk : truthy (JS.or (field (default_param (VObj []) options) "apiKey")
                               (env_get env "APORT_API_KEY")) = false).
    { unfold JS.or. now rewrite Hopt. }
    cbn [apiKey toThrow]. unfold bearer. cbn [apiKey]. rewrite Hk. auto.
  - intros options env this Hc. cbv zeta. split; [now apply Hkey | now apply Hhead].
  - intros options env this policy agentId context be w Hc. cbv zeta.
    exists (verify_request this policy agentId context).
    split; [apply verify_world |].
    unfold verify_request, request_of. cbn [req_headers]. now apply Hhead.
  - intros options env this c be w Hc. cbv zeta.
    destruct (invoke_requests this c be w) as (new & Hreq & Hall).
    exists new. split; [assumption |].
    eapply Forall_impl; [exact Hall |]. intros r Hr. cbn beta in Hr.
    rewrite Hr. now apply Hhead.
Qed.

Lemma client_without_key_witness :
  (exists this,
      constructor VUndefined ∅ = Normal this
      /\ truthy (apiKey this) = false
      /\ bearer this = None
      /\ toThrow (constructor VUndefined ∅)
           "APORT_API_KEY environment variable is required" = false)
  /\ (apiKey keyed = VStr "test-api-key"
      /\ inst_headers (client keyed) !! "Authorization" = Some "Bearer test-api-key")
  /\ (exists r,
      snd (verify keyed (VStr "payments.refund.v1") (VStr "agt_1") VUndefined
             (always (axios_timeout 10000)) new_world) = sent new_world r
      /\ req_headers r !! "Authorization" = Some "Bearer test-api-key")
  /\ (exists new,
      requests (snd (invoke anonymous
                       (CallVerify (VStr "payments.refund.v1") (VStr "agt_1") VUndefined)
                       (always (axios_timeout 10000)) new_world))
      = ([] ++ new)%list
      /\ Forall (fun r => req_headers r !! "Authorization" = None) new).
Proof.
  destruct client_without_key as (H1 & H2 & H3 & H4).
  split; [| split; [| split]].
  - apply (H1 VUndefined ∅); [discriminate | reflexivity | reflexivity].
  - exact (H2 (VObj [("apiKey", VStr "test-api-key")]) ∅ keyed eq_refl).
  - exact (H3 (VObj [("apiKey", VStr "test-api-key")]) ∅ keyed
              (VStr "payments.refund.v1") (VStr "agt_1") VUndefined
              (always (axios_timeout 10000)) new_world eq_refl).
  - exact (H4 VUndefined ∅ anonymous
              (CallVerify (VStr "payments.refund.v1") (VStr "agt_1") VUndefined)
              (always (axios_timeout 10000)) new_world eq_refl).
Defined.

(** ** The agent-id resolver (C5) *)

(** The loop accepts exactly the non-empty strings. *)
Lemma accepted_iff_nonempty_string v :
  truthy v && is_string v = true <-> exists s, v = VStr s /\ s <> "".
Proof.
  split.
  - destruct v; simpl; try (rewrite ?andb_false_r; discriminate).
    intros H. apply andb_true_iff in H as [H _].
    exists s. split; [reflexivity |]. intros ->. discriminate.
  - intros (s & -> & Hs). simpl. rewrite andb_true_r.
    destruct (String.eqb_spec s ""); [contradiction | reflexivity].
Qed.

(** Over sources that all evaluate, the loop computes the contract. *)
Lemma first_agent_id_values srcs vs :
  Forall2 (fun (src : unit -> completion value) v => src tt = Normal v) srcs vs ->
  Middleware.first_agent_id srcs = Normal (first_nonempty_string vs).
Proof.
  induction 1 as [| src v srcs vs Hsrc _ IH]; simpl; [reflexivity |].
  rewrite Hsrc.
  destruct v; simpl; rewrite ?andb_false_r; try assumption.
  rewrite andb_true_r. destruct (String.eqb s ""); simpl; [assumption | reflexivity].
Qed.

(** The first accepted source ends the loop: later sources are not read. *)
Lemma first_agent_id_head src srcs s :
  src tt = Normal (VStr s) -> s <> "" ->
  Middleware.first_agent_id (src :: srcs) = Normal (VStr s).
Proof.
  intros Hsrc Hs. simpl. rewrite Hsrc. simpl.
  destruct (String.eqb_spec s ""); [contradiction | reflexivity].
Qed.

(** A prefix of sources that yields an agent id decides, whatever follows. *)
Lemma first_agent_id_prefix srcs vs rest :
  Forall2 (fun (src : unit -> completion value) v => src tt = Normal v) srcs vs ->
  truthy (first_nonempty_string vs) = true ->
  Middleware.first_agent_id (srcs ++ rest) = Normal (first_nonempty_string vs).
Proof.
  induction 1 as [| src v srcs vs Hsrc _ IH]; simpl; [discriminate |].
  rewrite Hsrc. intros Ht.
  destruct v; simpl in *; rewrite ?andb_false_r; try (apply IH; assumption).
  rewrite andb_true_r. destruct (String.eqb s ""); simpl; [apply IH; assumption | reflexivity].
Qed.

Lemma params_get_shape params name :
  Middleware.params_get params name = VNull \/
  exists s, Middleware.params_get params name = VStr s.
Proof.
  induction params as [| [k v] rest IH]; simpl; [now left |].
  destruct (String.eqb k name); [right; eauto | assumption].
Qed.

Lemma or_chain_first_nonempty a b c :
  (a = VNull \/ exists s, a = VStr s) ->
  (b = VNull \/ exists s, b = VStr s) ->
  (c = VNull \/ exists s, c = VStr s) ->
  truthy (JS.or (JS.or a b) c) = truthy (first_nonempty_string [a; b; c])
  /\ (truthy (JS.or (JS.or a b) c) = true ->
      JS.or (JS.or a b) c = first_nonempty_string [a; b; c]).
Proof.
  intros [-> | [sa ->]] [-> | [sb ->]] [-> | [sc ->]]; unfold JS.or; simpl;
    repeat match goal with
      | |- context [String.eqb ?s ""] =>
          let E := fresh "E" in
          destruct (String.eqb s "") eqn:E; simpl; rewrite ?E; simpl
      end;
    try congruence;
    (split; [reflexivity | intros H; first [reflexivity | discriminate H]]).
Qed.

(** The Next.js middleware reads the first three sources only, in the same
    order: its agent id is the first non-empty string among them, and is
    falsy, which the middleware answers with a 400, when there is none. *)
Lemma middleware_agentId_priority request :
  truthy (Middleware.middleware_agentId request) =
  truthy (first_nonempty_string (next_candidates request))
  /\ (truthy (Middleware.middleware_agentId request) = true ->
      Middleware.middleware_agentId request =
      first_nonempty_string (next_candidates request)).
Proof.
  unfold Middleware.middleware_agentId, next_candidates.
  apply or_chain_first_nonempty.
  - unfold Middleware.headers_get. destruct (_ !! _); [right; eauto | now left].
  - unfold Middleware.headers_get. destruct (_ !! _); [right; eauto | now left].
  - apply params_get_shape.
Qed.

(** C5, counterexample: the resolver is not total on inbound requests.
    When the body was never parsed, the loop of [extractAgentId] throws as
    soon as it reaches the body, so the configured fallback is not returned;
    and the Next.js middleware has no body and no configured source to read:
    without the two headers and the query parameter it has no agent id. *)
Lemma resolver_skips_the_fallback :
  Middleware.extractAgentId
    {| Middleware.headers := []; Middleware.query := [];
       Middleware.body := VUndefined |} (VObj [("agentId", VStr "agt_static")])
  = Throw (TypeError "Cannot read properties of undefined (reading 'agent_id')")
  /\ Middleware.middleware_agentId
       {| Middleware.next_headers := {["content-type" := "application/json"]};
          Middleware.searchParams := [("agentId", "agt_camel")] |}
     = VNull.
Proof. split; reflexivity. Qed.

(** C5, as the code has it: on a request whose body is in place (not
    [undefined] or [null]), and with options that are not [null],
    [extractAgentId] returns the first non-empty string among, in this
    order, the header [x-agent-id], the header [x-aport-agent-id], the query
    parameter [agent_id], the body fields [agent_id] and [agentId] and the
    configured [agentId]; it returns [null] when there is none.  In
    particular a non-empty [x-agent-id] header wins over everything else,
    and the body field [agentId] is used when the headers, the query
    parameter and the body field [agent_id] are absent.  An agent id found
    in the headers or the query is returned whatever the body and the
    options are.  The Next.js middleware reads the first three sources
    only, in the same order: its agent id is the first non-empty string
    among them, and is falsy when there is none. *)
Theorem extractAgentId_priority :
  (forall req options,
      nullish (Middleware.body req) = false ->
      options <> VNull ->
      Middleware.extractAgentId req options =
      Normal (first_nonempty_string (candidates req options)))
  /\ (forall req options,
      truthy (first_nonempty_string (head_candidates req)) = true ->
      Middleware.extractAgentId req options =
      Normal (first_nonempty_string (head_candidates req)))
  /\ (forall req options,
      nullish (Middleware.body req) = false ->
      options <> VNull ->
      Forall (fun v => truthy v && is_string v = false) (candidates req options) ->
      Middleware.extractAgentId req options = Normal VNull)
  /\ (forall req options h,
      lookup_field (Middleware.headers req) "x-agent-id" = VStr h ->
      h <> "" ->
      Middleware.extractAgentId req options = Normal (VStr h))
  /\ (forall req options fields b,
      lookup_field (Middleware.headers req) "x-agent-id" = VUndefined ->
      lookup_field (Middleware.headers req) "x-aport-agent-id" = VUndefined ->
      lookup_field (Middleware.query req) "agent_id" = VUndefined ->
      Middleware.body req = VObj fields ->
      lookup_field fields "agent_id" = VUndefined ->
      lookup_field fields "agentId" = VStr b ->
      b <> "" ->
      Middleware.extractAgentId req options = Normal (VStr b))
  /\ (forall request,
      truthy (Middleware.middleware_agentId request) =
      truthy (first_nonempty_string (next_candidates request)))
  /\ (forall request,
      truthy (Middleware.middleware_agentId request) = true ->
      Middleware.middleware_agentId request =
      first_nonempty_string (next_candidates request)).
Proof.
  assert (Hmain : forall req options,
             nullish (Middleware.body req) = false ->
             options <> VNull ->
             Middleware.extractAgentId req options =
             Normal (first_nonempty_string (candidates req options))).
  { intros req options Hb Ho. unfold Middleware.extractAgentId.
    apply first_agent_id_values. unfold Middleware.sources, candidates.
    assert (Hopt : nullish (default_param (VObj []) options) = false)
      by (destruct options; try reflexivity; contradiction).
    unfold get. rewrite Hb, Hopt. repeat constructor. }
  split; [exact Hmain | split; [| split; [| split; [| split; [| split]]]]].
  - intros req options Ht. unfold Middleware.extractAgentId, Middleware.sources.
    apply (first_agent_id_prefix
             [ (fun _ => Normal (lookup_field (Middleware.headers req) "x-agent-id"));
               (fun _ => Normal (lookup_field (Middleware.headers req) "x-aport-agent-id"));
               (fun _ => Normal (lookup_field (Middleware.query req) "agent_id")) ]
             (head_candidates req)); [| assumption].
    repeat constructor.
  - intros req options Hb Ho Hall. rewrite Hmain by assumption. f_equal.
    induction Hall as [| v vs Hv _ IH]; simpl; [reflexivity |].
    destruct v; try assumption. simpl in Hv. rewrite andb_true_r in Hv.
    apply negb_false_iff in Hv. now rewrite Hv.
  - intros req options h Hh Hne. unfold Middleware.extractAgentId, Middleware.sources.
    apply first_agent_id_head; [now rewrite Hh | assumption].
  - intros req options fields b H1 H2 H3 Hbody Hsnake Hcamel Hne.
    unfold Middleware.extractAgentId, Middleware.sources. simpl.
    rewrite H1, H2, H3, Hbody. simpl. rewrite Hsnake, Hcamel. simpl.
    destruct (String.eqb_spec b ""); [contradiction | reflexivity].
  - intros request. apply middleware_agentId_priority.
  - intros request. apply middleware_agentId_priority.
Qed.

Lemma extractAgentId_priority_witness :
  Middleware.extractAgentId
    {| Middleware.headers := [("x-agent-id", VStr "agt_header")];
       Middleware.query := [("agent_id", VStr "agt_query")];
       Middleware.body := VObj [("agent_id", VStr "agt_body")] |} VUndefined
  = Normal (VStr "agt_header")
  /\ Middleware.extractAgentId
       {| Middleware.headers := [("content-type", VStr "application/json")];
          Middleware.query := [];
          Middleware.body := VObj [("agentId", VStr "agt_camel")] |} VUndefined
     = Normal (VStr "agt_camel")
  /\ Middleware.extractAgentId
       {| Middleware.headers := [("x-agent-id", VStr "")];
          Middleware.query := [("agent_id", VNum 7)];
          Middleware.body := VObj [("amount", VNum 100)] |}
       (VObj [("agentId", VStr "agt_static")])
     = Normal (VStr "agt_static")
  /\ Middleware.extractAgentId
       {| Middleware.headers := []; Middleware.query := [];
          Middleware.body := VObj [("amount", VNum 100)] |} VUndefined
     = Normal VNull
  /\ Middleware.extractAgentId
       {| Middleware.headers := [("x-aport-agent-id", VStr "agt_second")];
          Middleware.query := [("agent_id", VStr "agt_query")];
          Middleware.body := VUndefined |} VNull
     = Normal (VStr "agt_second")
  /\ Middleware.middleware_agentId
       {| Middleware.next_headers := {["x-aport-agent-id" := "agt_second"]};
          Middleware.searchParams := [("agent_id", "agt_query")] |}
     = VStr "agt_second".
Proof.
  destruct extractAgentId_priority as (H1 & H0 & H2 & H3 & H4 & _ & H6).
  split; [| split; [| split; [| split; [| split]]]].
  - apply (H3 _ VUndefined "agt_header"); [reflexivity | discriminate].
  - apply (H4 _ VUndefined [("agentId", VStr "agt_camel")] "agt_camel");
      try reflexivity. discriminate.
  - apply (H1 {| Middleware.headers := [("x-agent-id", VStr "")];
                 Middleware.query := [("agent_id", VNum 7)];
                 Middleware.body := VObj [("amount", VNum 100)] |}
              (VObj [("agentId", VStr "agt_static")])); [reflexivity | discriminate].
  - apply (H2 {| Middleware.headers := []; Middleware.query := [];
                 Middleware.body := VObj [("amount", VNum 100)] |} VUndefined);
      [reflexivity | discriminate | repeat constructor].
  - apply (H0 {| Middleware.headers := [("x-aport-agent-id", VStr "agt_second")];
                 Middleware.query := [("agent_id", VStr "agt_query")];
                 Middleware.body := VUndefined |} VNull); reflexivity.
  - exact (H6 {| Middleware.next_headers := {["x-aport-agent-id" := "agt_second"]};
                 Middleware.searchParams := [("agent_id", "agt_query")] |} eq_refl).
Defined.

(** Outside the precondition: a request whose body was never parsed makes
    the extraction throw as soon as the loop reaches the body, while a
    header found before that is still returned. *)
Lemma extractAgentId_unparsed_body :
  Middleware.extractAgentId
    {| Middleware.headers := []; Middleware.query := [];
       Middleware.body := VUndefined |} (VObj [("agentId", VStr "agt_static")])
  = Throw (TypeError "Cannot read properties of undefined (reading 'agent_id')")
  /\ Middleware.extractAgentId
       {| Middleware.headers := [("x-agent-id", VStr "agt_header")];
          Middleware.query := []; Middleware.body := VUndefined |} VUndefined
     = Normal (VStr "agt_header").
Proof. split; reflexivity. Qed.

(** * Further properties of the code *)

(** ** The client as a whole *)

Lemma requests_sent w r : requests (sent w r) = (requests w ++ [r])%list.
Proof. reflexivity. Qed.

Lemma console_sent w r : console (sent w r) = console w.
Proof. reflexivity. Qed.








(** X2: a call of the client makes at most one request, [getPassport] at
    most two, and writes nothing to the console, whatever the transport
    answers. *)
Theorem client_request_budget this c be w :
  exists new,
    requests (snd (invoke this c be w)) = (requests w ++ new)%list
    /\ (length new <= request_budget c)%nat
    /\ console (snd (invoke this c be w)) = console w.
Proof.
  destruct c; cbn [invoke request_budget];
    unfold verify, verifyPolicy, createPassport, getPassport, suspendPassport,
      getPolicyPack, listPolicyPacks, rethrow, JS.and;
    unfold_async; split_answers be;
    rewrite ?requests_sent, ?console_sent;
    first [ exists []; rewrite app_nil_r; repeat split; simpl; lia
          | eexists [_]; repeat split; simpl; lia
          | eexists [_; _]; rewrite <- app_assoc; repeat split; simpl; lia ].
Qed.

(** X3: over a transport that answers every request with the response [r],
    each method returns the body of [r] as it is; [createPassport] needs a
    credential for that and [getPassport] an [agent_id] in the body. *)
Theorem client_returns_body this c r w :
  returns_answer this c r ->
  fst (invoke this c (always (Resolved r)) w) = Normal (data r).
Proof.
  destruct c; cbn [invoke returns_answer]; intros H; try reflexivity.
  - unfold createPassport. now rewrite H.
  - destruct H as [Hd Ha]. unfold getPassport. unfold_async. simpl.
    unfold JS.and. now rewrite Hd, Ha.
Qed.

Lemma client_returns_body_witness :
  fst (invoke keyed (CallCreatePassport default_passport)
         (always (Resolved (ok (VObj [("agent_id", VStr "agt_1")])))) new_world)
  = Normal (VObj [("agent_id", VStr "agt_1")])
  /\ fst (invoke anonymous (CallGetPassport (VStr "agt_1"))
            (always (Resolved (ok (VObj [("agent_id", VStr "agt_1")])))) new_world)
     = Normal (VObj [("agent_id", VStr "agt_1")]).
Proof.
  split.
  - apply (client_returns_body keyed (CallCreatePassport default_passport)
             (ok (VObj [("agent_id", VStr "agt_1")]))). reflexivity.
  - apply (client_returns_body anonymous (CallGetPassport (VStr "agt_1"))
             (ok (VObj [("agent_id", VStr "agt_1")]))). split; reflexivity.
Defined.

(** ** The commands of the CLI *)

(** The [policy] action after its checks: the call and the report. *)
Lemma policy_action_resolved host pr env agentId policy context key contextObj r w :
  truthy agentId = true ->
  truthy policy = true ->
  parsed_context host context = Some contextObj ->
  nullish (data r) = false ->
  truthy (field (data r) "verified") = false ->
  truthy (field (data r) "reason") = false ->
  exists this,
    constructor (VObj [("apiKey", key)]) env = Normal this /\
    policy_action host pr env (policy_args agentId policy context key)
      (always (Resolved r)) w =
    (Normal tt,
     printed (printed (sent w (verify_request this policy agentId contextObj))
                Stdout "❌ Policy verification failed")
       Stdout "Reason: Unknown").
Proof.
  intros Ha Hp Hx Hn Hv Hr.
  destruct (constructor_object [("apiKey", key)] env) as [this Hc].
  exists this. split; [assumption |].
  unfold policy_action, policy_args. cbn [pol_apiKey pol_agentId pol_policy pol_context].
  rewrite Hc, Hx. unfold when. rewrite Ha, Hp. cbn [negb orb].
  unfold verifyPolicy, say2, shown. unfold_cli. unfold_async.
  cbn [always]. unfold get. rewrite Hn. cbn [fst snd].
  rewrite Hv. unfold JS.or. rewrite Hr. reflexivity.
Qed.

(** The report of an approved decision begins with the success line. *)
Lemma report_approved_begins host agentId policy result decision be w :
  result_decision result = Normal decision ->
  truthy decision = true ->
  truthy (field decision "allow") = true ->
  exists rest,
    console (snd (try_catch (report host agentId policy result) on_error be w)) =
    (console w ++ (Stdout, "✅ Agent verification successful!") :: rest)%list.
Proof.
  intros Hr Hd Ha. unfold report. rewrite Hr. unfold isApproved, JS.and.
  unfold_async. rewrite Hd, Ha. unfold_cli. unfold_async. unfold printed.
  destruct (truthy (field decision "reasons") &&
            length_gt_zero host (field decision "reasons")); cbn [fst snd console];
    [destruct (reasons_text _); cbn [fst snd console] |];
    eexists; rewrite <- !app_assoc; simpl; reflexivity.
Qed.

(** X4: the [policy] command judges by the field [verified] of the
    response and never looks at the decision.  On a response that carries
    an approving decision in either envelope, the [verify] command reports
    success while the [policy] command, given the same agent, policy and
    context, reports "Policy verification failed" with the reason
    "Unknown". *)
Theorem policy_command_ignores_decision
    host pr env agentId policy context key contextObj decision r w :
  truthy agentId = true ->
  truthy policy = true ->
  parsed_context host context = Some contextObj ->
  data r = shapeA decision \/ data r = shapeB decision ->
  truthy decision = true ->
  truthy (field decision "allow") = true ->
  (exists rest,
      console (snd (verify_action host env (verify_args agentId policy context key)
                      (always (Resolved r)) w)) =
      (console w ++ (Stdout, "✅ Agent verification successful!") :: rest)%list)
  /\ fst (policy_action host pr env (policy_args agentId policy context key)
            (always (Resolved r)) w) = Normal tt
  /\ console (snd (policy_action host pr env (policy_args agentId policy context key)
                     (always (Resolved r)) w)) =
     (console w ++ [(Stdout, "❌ Policy verification failed");
                    (Stdout, "Reason: Unknown")])%list.
Proof.
  intros Ha Hp Hx Hshape Hd Hallow.
  assert (Hres : result_decision (data r) = Normal decision).
  { destruct Hshape as [-> | ->];
      [now apply result_decision_shapeA | apply result_decision_shapeB]. }
  split.
  - destruct (constructor_object [("apiKey", key)] env) as [this Hc].
    assert (Hs : settle_args (verify_args agentId policy context key) =
                 (agentId, policy, context)).
    { unfold settle_args, verify_args, JS.or. simpl. reflexivity. }
    rewrite (verify_action_run _ _ _ _ _ this agentId policy context contextObj);
      try assumption.
    unfold try_catch at 1. unfold mbind, Async_bind.
    rewrite verify_always_resolved.
    destruct (report_approved_begins host agentId policy (data r) decision
                (always (Resolved r))
                (sent w (verify_request this policy agentId contextObj))
                Hres Hd Hallow) as [rest Hrest].
    exists rest. unfold try_catch in Hrest. exact Hrest.
  - destruct (policy_action_resolved host pr env agentId policy context key
                contextObj r w Ha Hp Hx) as (this & _ & Hrun).
    + destruct Hshape as [-> | ->]; reflexivity.
    + destruct Hshape as [-> | ->]; reflexivity.
    + destruct Hshape as [-> | ->]; reflexivity.
    + rewrite Hrun. split; [reflexivity |].
      unfold printed, sent. simpl. now rewrite <- app_assoc.
Qed.

Lemma policy_command_ignores_decision_witness :
  (exists rest,
      console (snd (verify_action bare_host ∅
                      (verify_args (VStr "agt_1") (VStr "payments.refund.v1")
                         VUndefined VUndefined)
                      (always (Resolved (ok (shapeA allow_decision)))) new_world)) =
      ([] ++ (Stdout, "✅ Agent verification successful!") :: rest)%list)
  /\ fst (policy_action bare_host plain_printer ∅
            (policy_args (VStr "agt_1") (VStr "payments.refund.v1")
               VUndefined VUndefined)
            (always (Resolved (ok (shapeA allow_decision)))) new_world) = Normal tt
  /\ console (snd (policy_action bare_host plain_printer ∅
                     (policy_args (VStr "agt_1") (VStr "payments.refund.v1")
                        VUndefined VUndefined)
                     (always (Resolved (ok (shapeA allow_decision)))) new_world)) =
     ([] ++ [(Stdout, "❌ Policy verification failed");
             (Stdout, "Reason: Unknown")])%list.
Proof.
  apply (policy_command_ignores_decision bare_host plain_printer ∅
           (VStr "agt_1") (VStr "payments.refund.v1") VUndefined VUndefined
           (VObj []) allow_decision (ok (shapeA allow_decision)) new_world);
    try reflexivity.
  left. reflexivity.
Defined.

(** *** Exit codes *)

Create HintDb exits.

Lemma exits_one_ret {A} (a : A) : exits_one (mret a).
Proof. intros be w code H. discriminate H. Qed.

Lemma exits_one_throw {A} (e : exn) : exits_one (throw e : Async A).
Proof. intros be w code H. discriminate H. Qed.

Lemma exits_one_exit {A} : exits_one (process_exit 1 : Async A).
Proof. intros be w code H. now inversion H. Qed.

Lemma exits_one_print s line : exits_one (print s line).
Proof. intros be w code H. discriminate H. Qed.

Lemma exits_one_lift {A} (c : completion A) :
  (forall code, c <> Exit code) -> exits_one (lift c).
Proof. intros Hc be w code H. unfold lift in H. simpl in H. now apply Hc in H. Qed.

Lemma exits_one_send inst m url params body :
  exits_one (send inst m url params body).
Proof.
  intros be w code H. unfold send in H. destruct (be _ _); discriminate H.
Qed.

Lemma exits_one_bind {A B} (m : Async A) (k : A -> Async B) :
  exits_one m -> (forall a, exits_one (k a)) -> exits_one (m ≫= k).
Proof.
  intros Hm Hk be w code H. unfold mbind, Async_bind in H.
  destruct (m be w) as [[a | e | c] w'] eqn:E.
  - now apply (Hk a be w').
  - discriminate H.
  - simpl in H. inversion H; subst. apply (Hm be w). now rewrite E.
Qed.

Lemma exits_one_try_catch {A} (body : Async A) (handler : exn -> Async A) :
  exits_one body -> (forall e, exits_one (handler e)) ->
  exits_one (try_catch body handler).
Proof.
  intros Hb Hh be w code H. unfold try_catch in H.
  destruct (body be w) as [[a | e | c] w'] eqn:E.
  - discriminate H.
  - now apply (Hh e be w').
  - simpl in H. inversion H; subst. apply (Hb be w). now rewrite E.
Qed.

#[local] Hint Resolve exits_one_ret exits_one_throw exits_one_exit
  exits_one_print exits_one_send exits_one_lift : exits.

Lemma get_no_exit v k code : get v k <> Exit code.
Proof. unfold get. destruct (nullish v); discriminate. Qed.

Lemma messages_no_exit items code : messages items <> Exit code.
Proof.
  induction items as [| r rest IH]; simpl; [discriminate |].
  unfold get. destruct (nullish r); simpl; [discriminate |].
  destruct (messages rest); [discriminate | discriminate | assumption].
Qed.

Lemma reasons_text_no_exit reasons code : reasons_text reasons <> Exit code.
Proof.
  destruct reasons; simpl; try discriminate.
  destruct (messages items) eqn:E; try discriminate.
  now apply messages_no_exit in E.
Qed.

Lemma result_decision_no_exit result code : result_decision result <> Exit code.
Proof.
  unfold result_decision, get. destruct (nullish result); discriminate.
Qed.

Lemma capabilities_of_no_exit answer code : capabilities_of answer <> Exit code.
Proof. destruct answer; discriminate. Qed.

#[local] Hint Resolve get_no_exit reasons_text_no_exit result_decision_no_exit
  capabilities_of_no_exit : exits.

Ltac exits :=
  repeat first
    [ solve [auto with exits]
    | progress cbv zeta
    | apply exits_one_bind; [| intros ?]
    | apply exits_one_try_catch; [| intros ?]
    | match goal with
      | |- exits_one (if ?b then _ else _) => destruct b
      | |- exits_one (match ?o with Some _ => _ | None => _ end) => destruct o
      | |- exits_one (when ?b _) => unfold when; destruct b
      | |- exits_one (say _) => unfold say
      | |- exits_one (complain _) => unfold complain
      | |- exits_one (say2 _ _ _) => unfold say2, say
      | |- exits_one (axios_post _ _ _) => unfold axios_post
      | |- exits_one (axios_get _ _ _) => unfold axios_get
      | |- exits_one (rethrow _) => unfold rethrow; destruct (exn_response _)
      | |- exits_one (on_error _) => unfold on_error
      | |- exits_one (match ?o with VUndefined => _ | _ => _ end) => destruct o
      end ].

Lemma exits_one_invoke this c : exits_one (invoke this c).
Proof.
  destruct c; cbn [invoke];
    unfold verify, verifyPolicy, createPassport, getPassport, suspendPassport,
      getPolicyPack, listPolicyPacks; exits.
Qed.

Lemma exits_one_verify this policy agentId context :
  exits_one (verify this policy agentId context).
Proof. apply (exits_one_invoke this (CallVerify policy agentId context)). Qed.

Lemma exits_one_verifyPolicy this policy agentId context :
  exits_one (verifyPolicy this policy agentId context).
Proof. apply (exits_one_invoke this (CallVerifyPolicy policy agentId context)). Qed.

Lemma exits_one_getPassport this agentId : exits_one (getPassport this agentId).
Proof. apply (exits_one_invoke this (CallGetPassport agentId)). Qed.

Lemma exits_one_createPassport this passportData :
  exits_one (createPassport this passportData).
Proof. apply (exits_one_invoke this (CallCreatePassport passportData)). Qed.

Lemma exits_one_report host agentId policy result :
  exits_one (report host agentId policy result).
Proof. unfold report, report_approved, report_failed. exits. Qed.

#[local] Hint Resolve exits_one_verify exits_one_verifyPolicy exits_one_getPassport
  exits_one_createPassport exits_one_report : exits.

(** A command body under the outer [catch]: it ends normally or with
    status 1. *)
Lemma guarded_command (body : Async unit) be w :
  exits_one body ->
  fst (try_catch body on_error be w) = Normal tt
  \/ fst (try_catch body on_error be w) = Exit 1.
Proof.
  intros Hb. unfold try_catch.
  destruct (body be w) as [[[] | e | c] w'] eqn:E.
  - now left.
  - right. reflexivity.
  - right. simpl. f_equal. apply (Hb be w). now rewrite E.
Qed.

(** X5: every run of the commands [verify], [policy], [get-passport] and
    [create-passport] ends either normally or by [process.exit(1)]: no
    exception escapes a command and no other exit status is used, whatever
    the command line, the environment and the transport. *)
Theorem commands_end_normally_or_exit_one host pr env be w :
  (forall args,
      fst (verify_action host env args be w) = Normal tt
      \/ fst (verify_action host env args be w) = Exit 1)
  /\ (forall args,
      fst (policy_action host pr env args be w) = Normal tt
      \/ fst (policy_action host pr env args be w) = Exit 1)
  /\ (forall args,
      fst (get_passport_action pr env args be w) = Normal tt
      \/ fst (get_passport_action pr env args be w) = Exit 1)
  /\ (forall args,
      fst (create_passport_action pr env args be w) = Normal tt
      \/ fst (create_passport_action pr env args be w) = Exit 1).
Proof.
  split; [| split; [| split]]; intros args.
  - unfold verify_action.
    destruct (constructor_object [("apiKey", program_apiKey args)] env) as [this ->].
    apply guarded_command. destruct (settle_args args) as [[agentId policy] context].
    exits.
  - unfold policy_action.
    destruct (constructor_object [("apiKey", pol_apiKey args)] env) as [this ->].
    apply guarded_command. exits.
  - unfold get_passport_action.
    destruct (constructor_object [("apiKey", gp_apiKey args)] env) as [this ->].
    apply guarded_command. exits.
  - unfold create_passport_action.
    destruct (constructor_object [("apiKey", cp_apiKey args)] env) as [this ->].
    apply guarded_command. exits.
Qed.

(** *** The demo *)

Lemma requests_printed w s line : requests (printed w s line) = requests w.
Proof. reflexivity. Qed.

Lemma console_printed w s line :
  console (printed w s line) = (console w ++ [(s, line)])%list.
Proof. reflexivity. Qed.

(** A verification step of the demo makes its one request and prints one
    line, whatever comes back: its verdict, or the error. *)
Lemma demo_verify_step client policy agentId context be w :
  exists line,
    demo_verify client policy agentId context be w =
    (Normal tt,
     printed (sent w (verify_request client policy agentId context)) Stdout line)
    /\ verify_step_line line.
Proof.
  unfold demo_verify, demo_error, verify, verify_request, result_decision, get.
  unfold verify_step_line. unfold_cli. unfold_async.
  destruct (be _ _) as [r | e]; cbn [fst snd].
  - destruct (nullish (data r)); cbn [fst snd].
    + eexists. split; [reflexivity |]. right. right. eauto.
    + destruct (truthy (isApproved _));
        (eexists; split; [reflexivity |]); [left | right; left]; reflexivity.
  - destruct (exn_response e) as [resp |]; cbn [fst snd].
    + destruct (nullish (data resp)); cbn [fst snd];
        (eexists; split; [reflexivity |]; right; right; eauto).
    + eexists. split; [reflexivity |]. right. right. eauto.
Qed.

(** The passport step makes the probe, and the direct lookup when the probe
    is rejected and a credential is configured; then it prints one line,
    the name of the passport or the error. *)
Lemma demo_passport_step pr client be w :
  exists tail line,
    try_catch (passport ← getPassport client refund_bot;
               name ← lift (get passport "name");
               say2 pr "✅ Passport retrieved:" name)
      demo_error be w =
    (Normal tt,
     {| requests := (requests w ++ probe_request client refund_bot :: tail)%list;
        console := (console w ++ [(Stdout, line)])%list |})
    /\ (tail = [] \/ tail = [passport_request client refund_bot])
    /\ passport_step_line pr line.
Proof.
  unfold demo_error, getPassport, rethrow, say2, get, JS.and, passport_step_line.
  unfold_cli. unfold_async. unfold printed, sent.
  repeat match goal with
    | |- context [be ?h ?r] => destruct (be h r); cbn [fst snd requests console]
    | |- context [exn_response ?e] => destruct (exn_response e); cbn [fst snd requests console]
    | |- context [nullish ?v] => destruct (nullish v); cbn [fst snd requests console]
    | |- context [truthy ?v] => destruct (truthy v); cbn [fst snd negb requests console]
    end;
    first [ exists []; eexists; split; [reflexivity |];
              split; [left; reflexivity |];
              first [ left; eexists; reflexivity | right; eexists; reflexivity ]
          | exists [passport_request client refund_bot]; eexists; split;
              [rewrite <- app_assoc; reflexivity |];
              split; [right; reflexivity |];
              first [ left; eexists; reflexivity | right; eexists; reflexivity ] ].
Qed.

(** X6: the demo always runs to its end.  Whatever the transport answers
    and whatever the credential, it ends normally.  Its requests are the
    verification of the refund bot, the verification of the data exporter
    and the probe for the passport, followed or not by the direct lookup.
    It prints its heading, then under each of its three titles the one line
    of that step, the verdict or the passport's name or else the error, and
    last "Demo completed!". *)
Theorem demo_always_completes pr env key be w :
  exists this tail line1 line2 line3,
    constructor (VObj [("apiKey", key)]) env = Normal this
    /\ demo_action pr env key be w =
       (Normal tt,
        {| requests :=
             (requests w ++
              verify_request this (VStr "payments.refund.v1") refund_bot
                (VObj [("amount", VNum 50); ("currency", VStr "USD")])
              :: verify_request this (VStr "data.export.v1") data_exporter
                   (VObj [("rows", VNum 5000); ("dataset", VStr "users")])
              :: probe_request this refund_bot
              :: tail)%list;
           console :=
             (console w ++
              [(Stdout, "🎬 Running APort CLI Demo...
");
               (Stdout, "1. Verifying refund bot against payments.refund.v1 policy");
               (Stdout, line1);
               (Stdout, "
2. Verifying data exporter against data.export.v1 policy");
               (Stdout, line2);
               (Stdout, "
3. Fetching passport for admin bot");
               (Stdout, line3);
               (Stdout, "
🎉 Demo completed!")])%list |})
    /\ (tail = [] \/ tail = [passport_request this refund_bot])
    /\ verify_step_line line1
    /\ verify_step_line line2
    /\ passport_step_line pr line3.
Proof.
  unfold demo_action.
  destruct (constructor_object [("apiKey", key)] env) as [this Hthis].
  rewrite Hthis.
  unfold mbind, Async_bind. unfold say at 1 2. unfold print. cbn [fst snd].
  set (w1 := printed (printed w _ _) _ _).
  destruct (demo_verify_step this (VStr "payments.refund.v1") refund_bot
              (VObj [("amount", VNum 50); ("currency", VStr "USD")]) be w1)
    as (l1 & -> & Hl1).
  unfold say at 1. unfold print. cbn [fst snd].
  set (w2 := printed (printed _ _ l1) _ _).
  destruct (demo_verify_step this (VStr "data.export.v1") data_exporter
              (VObj [("rows", VNum 5000); ("dataset", VStr "users")]) be w2)
    as (l2 & -> & Hl2).
  unfold say at 1. unfold print. cbn [fst snd].
  set (w3 := printed (printed _ _ l2) _ _).
  destruct (demo_passport_step pr this be w3) as (tail & l3 & Hstep & Htail & Hl3).
  unfold mbind, Async_bind in Hstep. rewrite Hstep.
  unfold say, print, printed. cbn [fst snd requests console].
  subst w3 w2 w1. unfold printed, sent. cbn [requests console].
  exists this, tail, l1, l2, l3.
  split; [reflexivity |].
  split; [| auto].
  f_equal. f_equal.
  - rewrite <- !app_assoc. reflexivity.
  - rewrite <- !app_assoc. reflexivity.
Qed.

(** *** Passport commands *)

(** X7: without a credential, neither on the command line nor in
    [APORT_API_KEY], [create-passport] exits with status 1 and makes no
    request, in interactive mode or not.  Outside interactive mode it
    writes nothing through [console.log], and through [console.error] the
    "API key required for passport creation" error only; the spinner it
    started before the call draws on the terminal by itself. *)
Theorem create_passport_needs_key pr env args be w :
  truthy (cp_apiKey args) = false ->
  truthy (env_get env "APORT_API_KEY") = false ->
  fst (create_passport_action pr env args be w) = Exit 1
  /\ requests (snd (create_passport_action pr env args be w)) = requests w
  /\ (truthy (cp_interactive args) = false ->
      console (snd (create_passport_action pr env args be w)) =
      (console w ++ [(Stderr, "❌ Error: " +:+ createPassport_key_required)])%list).
Proof.
  intros Hk He. unfold create_passport_action, constructor. cbn [default_param get nullish].
  cbn [field lookup_field String.eqb Ascii.eqb Bool.eqb].
  unfold createPassport. cbn [apiKey]. unfold JS.or. rewrite Hk, He.
  unfold on_error. unfold_cli. unfold_async.
  destruct (truthy (cp_interactive args)); cbn [negb fst snd].
  - unfold capabilities_of. destruct (cp_capabilities args); cbn [fst snd];
      (split; [reflexivity | split; [reflexivity | discriminate]]).
  - split; [reflexivity | split; [reflexivity | reflexivity]].
Qed.

Lemma create_passport_needs_key_witness :
  fst (create_passport_action plain_printer ∅
         {| cp_interactive := VUndefined; cp_name := VUndefined;
            cp_role := VUndefined; cp_description := VUndefined;
            cp_capabilities := VUndefined; cp_contact := VUndefined;
            cp_apiKey := VUndefined |}
         (always (Resolved (ok (VObj [("agent_id", VStr "agt_1")])))) new_world)
  = Exit 1.
Proof.
  apply (create_passport_needs_key plain_printer ∅
           {| cp_interactive := VUndefined; cp_name := VUndefined;
              cp_role := VUndefined; cp_description := VUndefined;
              cp_capabilities := VUndefined; cp_contact := VUndefined;
              cp_apiKey := VUndefined |}); reflexivity.
Defined.

(** X8: [get-passport] without an agent id exits with status 1 before any
    request.  With one, and a probe answered with an [agent_id], it prints
    the passport after a single request and ends normally, with or without
    a credential. *)
Theorem get_passport_command pr env args :
  (forall be w,
      truthy (asked_agent args) = false ->
      get_passport_action pr env args be w =
      (Exit 1, printed w Stderr "❌ Agent ID is required"))
  /\ (forall r w,
      truthy (asked_agent args) = true ->
      truthy (data r) = true ->
      truthy (field (data r) "agent_id") = true ->
      fst (get_passport_action pr env args (always (Resolved r)) w) = Normal tt
      /\ length (requests (snd (get_passport_action pr env args
                                  (always (Resolved r)) w)))
         = S (length (requests w))
      /\ console (snd (get_passport_action pr env args (always (Resolved r)) w)) =
         (console w ++
          [(Stdout, "✅ Passport retrieved successfully!");
           (Stdout, "📋 Passport: " +:+ shown pr (JSON_stringify pr (data r)))])%list).
Proof.
  split.
  - intros be w Ha. unfold get_passport_action.
    destruct (constructor_object [("apiKey", gp_apiKey args)] env) as [this ->].
    unfold asked_agent in Ha. unfold when. rewrite Ha. reflexivity.
  - intros r w Ha Hd Hid. unfold get_passport_action.
    destruct (constructor_object [("apiKey", gp_apiKey args)] env) as [this ->].
    unfold asked_agent in Ha. unfold when. rewrite Ha.
    unfold getPassport, say2, JS.and. unfold_cli. unfold_async.
    cbn [always negb fst snd]. rewrite Hd, Hid. cbn [fst snd].
    unfold printed, sent. cbn [requests console].
    split; [reflexivity | split].
    + rewrite length_app. simpl. lia.
    + now rewrite <- app_assoc.
Qed.

Lemma get_passport_command_witness :
  get_passport_action plain_printer ∅
    {| gp_agentId := VUndefined; gp_interactive := VUndefined;
       gp_answer := VUndefined; gp_apiKey := VUndefined |}
    (always (axios_timeout 10000)) new_world
  = (Exit 1, printed new_world Stderr "❌ Agent ID is required")
  /\ fst (get_passport_action plain_printer ∅
            {| gp_agentId := VStr "agt_1"; gp_interactive := VUndefined;
               gp_answer := VUndefined; gp_apiKey := VUndefined |}
            (always (Resolved (ok (VObj [("agent_id", VStr "agt_1")])))) new_world)
     = Normal tt.
Proof.
  split.
  - apply (proj1 (get_passport_command plain_printer ∅ _)). reflexivity.
  - apply (proj2 (get_passport_command plain_printer ∅
                    {| gp_agentId := VStr "agt_1"; gp_interactive := VUndefined;
                       gp_answer := VUndefined; gp_apiKey := VUndefined |})
             (ok (VObj [("agent_id", VStr "agt_1")])) new_world); reflexivity.
Defined.

(** ** The policy test runners *)

Lemma runner_decision_no_exit result code : runner_decision result <> Exit code.
Proof. unfold runner_decision, get. destruct (nullish result); discriminate. Qed.

Lemma optional_includes_no_exit what v expected code :
  Runner.optional_includes what v expected <> Exit code.
Proof. destruct v; discriminate. Qed.

Lemma reason_matches_no_exit expected r code :
  Runner.reason_matches expected r <> Exit code.
Proof.
  unfold Runner.reason_matches, get. destruct (nullish r); [discriminate |].
  destruct (Runner.optional_includes "r.code?.includes" _ _) as [found | |] eqn:E;
    try discriminate.
  - destruct (truthy found); [discriminate | apply optional_includes_no_exit].
  - now apply optional_includes_no_exit in E.
Qed.

Lemma has_reason_no_exit expected reasons code :
  Runner.has_reason expected reasons <> Exit code.
Proof.
  destruct reasons; try discriminate. simpl.
  induction items as [| r rest IH]; simpl; [discriminate |].
  destruct (Runner.reason_matches expected r) as [found | |] eqn:E; try discriminate.
  - destruct (truthy found); [discriminate | assumption].
  - now apply reason_matches_no_exit in E.
Qed.

Lemma codes_text_no_exit reasons code : Runner.codes_text reasons <> Exit code.
Proof.
  destruct reasons; try discriminate. simpl.
  assert (H : forall c, Runner.codes items <> Exit c).
  { induction items as [| r rest IH]; simpl; intros c; [discriminate |].
    unfold get. destruct (nullish r); [discriminate |].
    destruct (Runner.codes rest) eqn:E; try discriminate.
    intros _. exact (IH _ eq_refl). }
  destruct (Runner.codes items) eqn:E; try discriminate.
  intros _. exact (H _ eq_refl).
Qed.

(** The judgement of a result counts the case once, or throws, and does
    not touch the network. *)
Lemma judge_outcome tc passed failed result be w :
  (fst (Runner.judge tc (passed, failed) result be w) = Normal (S passed, failed)
   \/ fst (Runner.judge tc (passed, failed) result be w) = Normal (passed, S failed)
   \/ exists e, fst (Runner.judge tc (passed, failed) result be w) = Throw e)
  /\ requests (snd (Runner.judge tc (passed, failed) result be w)) = requests w.
Proof.
  unfold Runner.judge. unfold_cli. unfold_async.
  destruct (runner_decision result) as [decision | e | c] eqn:Ed; cbn [fst snd];
    [| eauto | now apply runner_decision_no_exit in Ed].
  destruct (Runner.shouldPass tc && truthy (isApproved decision)); cbn [fst snd];
    [auto |].
  destruct (negb (Runner.shouldPass tc) && negb (truthy (isApproved decision)));
    cbn [fst snd].
  - destruct (Runner.expected_of tc) as [expected |]; cbn [fst snd]; [| auto].
    destruct (Runner.has_reason expected _) as [[] | e | c] eqn:Eh; cbn [fst snd];
      [auto | | eauto | now apply has_reason_no_exit in Eh].
    destruct (Runner.codes_text _) as [got | e | c] eqn:Ec; cbn [fst snd];
      [auto | eauto | now apply codes_text_no_exit in Ec].
  - destruct (truthy (opt_get decision "reasons")); cbn [fst snd]; [| auto].
    destruct (reasons_text _) as [text | e | c] eqn:Et; cbn [fst snd];
      [auto | eauto | now apply reasons_text_no_exit in Et].
Qed.

(** The call of [verify] in a turn: a result or an exception, after the one
    request. *)
Lemma verify_outcome this policy agentId context be w :
  (exists result,
      verify this policy agentId context be w =
      (Normal result, sent w (verify_request this policy agentId context)))
  \/ (exists e,
      verify this policy agentId context be w =
      (Throw e, sent w (verify_request this policy agentId context))).
Proof.
  unfold verify, verify_request, get. unfold_async.
  destruct (be _ _) as [r | e]; cbn [fst snd]; [eauto |].
  destruct (exn_response e) as [resp |]; cbn [fst snd]; [| eauto].
  destruct (nullish (data resp)); cbn [fst snd]; eauto.
Qed.

(** A turn of the loop counts its case exactly once and makes exactly one
    request. *)
Lemma run_case_outcome client policy agentId tc passed failed be w :
  (fst (Runner.run_case client policy agentId tc (passed, failed) be w)
     = Normal (S passed, failed)
   \/ fst (Runner.run_case client policy agentId tc (passed, failed) be w)
     = Normal (passed, S failed))
  /\ requests (snd (Runner.run_case client policy agentId tc (passed, failed) be w))
     = (requests w ++ [verify_request client policy agentId (Runner.context tc)])%list.
Proof.
  unfold Runner.run_case, Runner.case_error, try_catch.
  unfold mbind, Async_bind, mret, Async_ret, say, print. cbn [fst snd].
  set (w1 := printed w _ _).
  destruct (verify_outcome client policy agentId (Runner.context tc) be w1)
    as [[result ->] | [e ->]].
  - destruct (judge_outcome tc passed failed result be
                (sent w1 (verify_request client policy agentId (Runner.context tc))))
      as [Hfst Hreq].
    destruct (Runner.judge _ _ _ _ _) as [[tally | e | c] w2]; cbn [fst snd] in *.
    + split; [| exact Hreq].
      destruct Hfst as [H | [H | [e H]]]; [now left | now right | discriminate H].
    + split; [now right |]. now rewrite !requests_printed.
    + destruct Hfst as [H | [H | [e H]]]; discriminate H.
  - cbn [fst snd]. split; [now right | reflexivity].
Qed.

(** X9: the loop of the test runners counts every case exactly once:
    whatever the service answers, and even when requests fail, it ends with
    [passed + failed] grown by the number of cases, after exactly one
    request per case. *)
Theorem every_case_counted client policy agentId cases :
  forall passed failed be w,
  exists passed' failed' w',
    Runner.run_cases client policy agentId cases (passed, failed) be w =
    (Normal (passed', failed'), w')
    /\ (passed' + failed' = passed + failed + length cases)%nat
    /\ length (requests w') = (length (requests w) + length cases)%nat.
Proof.
  induction cases as [| tc rest IH]; intros passed failed be w.
  - exists passed, failed, w. simpl. repeat split; lia.
  - cbn [Runner.run_cases]. unfold mbind, Async_bind.
    destruct (run_case_outcome client policy agentId tc passed failed be w)
      as [Hfst Hreq].
    destruct (Runner.run_case _ _ _ _ _ _ _) as [[[p f] | e | c] w1];
      cbn [fst snd] in *;
      [| destruct Hfst as [H | H]; discriminate H
       | destruct Hfst as [H | H]; discriminate H].
    destruct (IH p f be w1) as (p' & f' & w' & Hrun & Hsum & Hlen).
    exists p', f', w'. split; [exact Hrun |].
    rewrite Hreq, length_app in Hlen. simpl in *.
    destruct Hfst as [H | H]; inversion H; subst; lia.
Qed.

Lemma optional_includes_text what v expected :
  text_or_missing v ->
  exists found, Runner.optional_includes what v expected = Normal found.
Proof. intros [-> | [-> | [s ->]]]; simpl; eauto. Qed.

Lemma reason_matches_plain expected r :
  plain_reason r -> exists found, Runner.reason_matches expected r = Normal found.
Proof.
  intros (fields & -> & Hcode & Hmsg). unfold Runner.reason_matches. simpl.
  destruct (optional_includes_text "r.code?.includes" _ expected Hcode) as [found ->].
  destruct (truthy found); [eauto |].
  apply optional_includes_text. exact Hmsg.
Qed.

Lemma some_matches_plain expected items :
  Forall plain_reason items ->
  exists found, Runner.some_matches expected items = Normal found.
Proof.
  induction 1 as [| r rest Hr _ [found IH]]; simpl; [eauto |].
  destruct (reason_matches_plain expected r Hr) as [f ->].
  destruct (truthy f); eauto.
Qed.

Lemma codes_plain items :
  Forall plain_reason items -> exists cs, Runner.codes items = Normal cs.
Proof.
  induction 1 as [| r rest (fields & -> & _) _ [cs IH]]; simpl; [eauto |].
  rewrite IH. eauto.
Qed.

Lemma messages_plain items :
  Forall plain_reason items -> exists ms, messages items = Normal ms.
Proof.
  induction 1 as [| r rest (fields & -> & _) _ [ms IH]]; simpl; [eauto |].
  rewrite IH. eauto.
Qed.

(** X10: on an answer whose reasons, if any, are a list of plain reasons,
    a case is counted as passed exactly when the approval of the agent is
    what the case expects, and as failed otherwise.  The expected reason
    plays no part in the count: a case rejected for another reason than the
    expected one is still counted as passed. *)
Theorem count_follows_approval client policy agentId tc passed failed r decision items be w :
  be (requests w) (verify_request client policy agentId (Runner.context tc)) = Resolved r ->
  runner_decision (data r) = Normal decision ->
  JS.or (opt_get decision "reasons") (VArr []) = VArr items ->
  Forall plain_reason items ->
  fst (Runner.run_case client policy agentId tc (passed, failed) be w) =
  Normal (if Bool.eqb (Runner.shouldPass tc) (truthy (isApproved decision))
          then (S passed, failed)
          else (passed, S failed)).
Proof.
  intros Hbe Hdec Hreasons Hplain.
  unfold Runner.run_case, Runner.case_error, try_catch.
  unfold mbind, Async_bind, mret, Async_ret, say, print. cbn [fst snd].
  unfold verify, verify_request in *. unfold_async. cbn [requests printed].
  rewrite Hbe. cbn [fst snd].
  unfold Runner.judge. unfold_cli. unfold_async. rewrite Hdec. cbn [fst snd].
  rewrite Hreasons.
  destruct (Runner.shouldPass tc), (truthy (isApproved decision)) eqn:Happ;
    cbn [andb negb Bool.eqb fst snd]; try reflexivity.
  - (* expected to pass, denied *)
    destruct (truthy (opt_get decision "reasons")) eqn:Ht; cbn [fst snd];
      [| reflexivity].
    assert (Hr : field decision "reasons" = VArr items).
    { unfold JS.or in Hreasons. rewrite Ht in Hreasons.
      unfold opt_get in *. destruct (nullish decision); [discriminate Ht | exact Hreasons]. }
    rewrite Hr. unfold reasons_text.
    destruct (messages_plain items Hplain) as [ms ->]. reflexivity.
  - (* expected to fail, approved *)
    destruct (truthy (opt_get decision "reasons")) eqn:Ht; cbn [fst snd];
      [| reflexivity].
    assert (Hr : field decision "reasons" = VArr items).
    { unfold JS.or in Hreasons. rewrite Ht in Hreasons.
      unfold opt_get in *. destruct (nullish decision); [discriminate Ht | exact Hreasons]. }
    rewrite Hr. unfold reasons_text.
    destruct (messages_plain items Hplain) as [ms ->]. reflexivity.
  - (* expected to fail, denied *)
    destruct (Runner.expected_of tc) as [expected |]; cbn [fst snd]; [| reflexivity].
    unfold Runner.has_reason.
    destruct (some_matches_plain expected items Hplain) as [[] ->]; cbn [fst snd];
      [reflexivity |].
    unfold Runner.codes_text. destruct (codes_plain items Hplain) as [cs ->].
    reflexivity.
Qed.

Lemma count_follows_approval_witness :
  fst (Runner.run_case anonymous (VStr "messaging.message.send.v1")
         (VStr "ap_a2d10232c6534523812423eec8a1425c")
         {| Runner.name := "Empty message";
            Runner.context := VObj [("channel_id", VStr "general");
                                    ("message", VStr "");
                                    ("message_type", VStr "text")];
            Runner.shouldPass := false;
            Runner.expectedReason := Some "invalid_field_value" |}
         (0%nat, 0%nat)
         (always (Resolved (ok (shapeB deny_decision)))) new_world)
  = Normal (1%nat, 0%nat).
Proof.
  refine (count_follows_approval anonymous (VStr "messaging.message.send.v1")
            (VStr "ap_a2d10232c6534523812423eec8a1425c")
            {| Runner.name := "Empty message";
               Runner.context := VObj [("channel_id", VStr "general");
                                       ("message", VStr "");
                                       ("message_type", VStr "text")];
               Runner.shouldPass := false;
               Runner.expectedReason := Some "invalid_field_value" |}
            0%nat 0%nat
            (ok (shapeB deny_decision)) deny_decision
            [VObj [("code", VStr "limit_exceeded");
                   ("message", VStr "Amount exceeds limit")]]
            (always (Resolved (ok (shapeB deny_decision)))) new_world
            eq_refl eq_refl eq_refl _).
  repeat constructor. eexists. split; [reflexivity |].
  split; right; right; eexists; reflexivity.
Defined.

(** ** The Express middleware *)

(** No candidate that is a non-empty string: the extraction returns
    [null]. *)
Lemma extractAgentId_none req options :
  nullish (Middleware.body req) = false ->
  options <> VNull ->
  Forall (fun v => truthy v && is_string v = false) (candidates req options) ->
  Middleware.extractAgentId req options = Normal VNull.
Proof.
  intros Hb Ho Hall. unfold Middleware.extractAgentId.
  assert (Hopt : nullish (default_param (VObj []) options) = false)
    by (destruct options; try reflexivity; contradiction).
  rewrite (first_agent_id_values _ (candidates req options)).
  - f_equal. induction Hall as [| v vs Hv _ IH]; simpl; [reflexivity |].
    destruct v; try assumption. simpl in Hv. rewrite andb_true_r in Hv.
    apply negb_false_iff in Hv. now rewrite Hv.
  - unfold Middleware.sources, candidates, get. rewrite Hb, Hopt.
    repeat constructor.
Qed.

Lemma default_options_idempotent options :
  default_param (VObj []) (default_param (VObj []) options) =
  default_param (VObj []) options.
Proof. destruct options; reflexivity. Qed.

(** X11: a request that carries no agent id (its body being in place) is
    answered 400 "Agent ID required", whatever the client, the policy and
    the mode: the client is not consulted. *)
Theorem missing_agent_id_is_400 verify policy middlewareOptions req :
  nullish (Middleware.body (Express.ex_request req)) = false ->
  middlewareOptions <> VNull ->
  Forall (fun v => truthy v && is_string v = false)
    (candidates (Express.ex_request req) middlewareOptions) ->
  Express.requirePolicy_with verify policy middlewareOptions req =
  Normal (Express.Respond 400 Express.agent_id_required).
Proof.
  intros Hb Ho Hall. unfold Express.requirePolicy_with, Express.attempt.
  assert (Hex : Middleware.extractAgentId (Express.ex_request req)
                  (default_param (VObj []) middlewareOptions) = Normal VNull).
  { apply extractAgentId_none; [assumption | |].
    - destruct middlewareOptions; try discriminate. contradiction.
    - unfold candidates in *. now rewrite default_options_idempotent. }
  rewrite Hex. reflexivity.
Qed.

Lemma missing_agent_id_is_400_witness :
  Express.requirePolicy_with Express.mock_verify (VStr "finance.payment.refund.v1")
    VUndefined
    {| Express.ex_request :=
         {| Middleware.headers := [("content-type", VStr "application/json")];
            Middleware.query := [];
            Middleware.body := VObj [("amount", VNum 100)] |};
       Express.ex_method := VStr "POST"; Express.ex_path := VStr "/refund";
       Express.ex_userAgent := VUndefined; Express.ex_ip := VStr "::1" |}
  = Normal (Express.Respond 400 Express.agent_id_required).
Proof.
  apply missing_agent_id_is_400; [reflexivity | discriminate | repeat constructor].
Defined.

(** X12: the middleware calls [next] in two cases only.  Either the
    extraction found an agent id, the client answered for it with a truthy
    [verified], and [req.aport] records [verified: true] with that agent
    and the policy; or something threw in non-strict mode
    ([strict: false]), and [req.aport] records [verified: false] with the
    message of the error. *)
Theorem next_only_when_verified_or_lenient verify policy middlewareOptions req aport :
  Express.requirePolicy_with verify policy middlewareOptions req =
    Normal (Express.Next aport) ->
  let options := default_param (VObj []) middlewareOptions in
  (exists agentId result,
      Middleware.extractAgentId (Express.ex_request req) options = Normal agentId
      /\ truthy agentId = true
      /\ verify policy agentId
           (Express.verify_argument req (field options "context")) = Normal result
      /\ truthy (field result "verified") = true
      /\ aport = VObj [("verified", VBool true);
                       ("passport", field result "passport");
                       ("policy", policy);
                       ("agentId", agentId);
                       ("result", result)])
  \/ (exists error,
      field options "strict" = VBool false
      /\ Express.attempt verify policy options req = Throw error
      /\ aport = VObj [("verified", VBool false);
                       ("error", VStr (exn_message error))]).
Proof.
  unfold Express.requirePolicy_with. cbv zeta.
  set (options := default_param (VObj []) middlewareOptions).
  destruct (Express.attempt verify policy options req) as [out | error | code] eqn:Hatt.
  - intros H. inversion H; subst out. left.
    unfold Express.attempt in Hatt. unfold mbind, Express.completion_bind in Hatt.
    destruct (Middleware.extractAgentId _ _) as [agentId | |]; try discriminate.
    destruct (truthy agentId) eqn:Hid; cbn [negb] in Hatt; [| discriminate].
    unfold get in Hatt.
    destruct (nullish options); [discriminate |].
    destruct (verify _ _ _) as [result | |] eqn:Hv; try discriminate.
    destruct (nullish result); [discriminate |].
    destruct (truthy (field result "verified")) eqn:Hver; cbn [negb] in Hatt;
      [| discriminate].
    inversion Hatt. exists agentId, result. auto.
  - unfold mbind, Express.completion_bind, get.
    destruct (nullish options); [discriminate |].
    destruct (field options "strict") as [| | [] | | | |] eqn:Hs; cbn [Express.is_strict];
      try discriminate.
    intros H. inversion H. right. exists error. auto.
  - discriminate.
Qed.

Lemma next_only_when_verified_or_lenient_witness :
  let options := default_param (VObj []) VUndefined in
  (exists agentId result,
      Middleware.extractAgentId (Express.ex_request refund_req) options = Normal agentId
      /\ truthy agentId = true
      /\ Express.mock_verify refund_policy agentId
           (Express.verify_argument refund_req (field options "context")) = Normal result
      /\ truthy (field result "verified") = true
      /\ refund_aport = VObj [("verified", VBool true);
                              ("passport", field result "passport");
                              ("policy", refund_policy);
                              ("agentId", agentId);
                              ("result", result)])
  \/ (exists error,
      field options "strict" = VBool false
      /\ Express.attempt Express.mock_verify refund_policy options refund_req
         = Throw error
      /\ refund_aport = VObj [("verified", VBool false);
                              ("error", VStr (exn_message error))]).
Proof.
  apply (next_only_when_verified_or_lenient Express.mock_verify refund_policy
           VUndefined refund_req refund_aport).
  reflexivity.
Defined.

(** X13: a request without an agent id in its headers or query whose body
    was never parsed is not answered 400.  Reading the body throws, which
    the middleware answers 500 "Verification error" in strict mode (the
    default) and, with [strict: false], lets through to [next] as
    unverified. *)
Theorem unparsed_body_without_agent_id verify policy middlewareOptions req :
  nullish (Middleware.body (Express.ex_request req)) = true ->
  middlewareOptions <> VNull ->
  Forall (fun v => truthy v && is_string v = false)
    (head_candidates (Express.ex_request req)) ->
  Express.requirePolicy_with verify policy middlewareOptions req =
  Normal
    (if Express.is_strict (field (default_param (VObj []) middlewareOptions) "strict")
     then Express.Respond 500 Express.verification_error
     else Express.Next
            (VObj [("verified", VBool false);
                   ("error",
                    VStr ("Cannot read properties of " +:+
                          to_string (Middleware.body (Express.ex_request req)) +:+
                          " (reading 'agent_id')"))])).
Proof.
  intros Hb Ho Hall. unfold Express.requirePolicy_with, Express.attempt. cbv zeta.
  set (options := default_param (VObj []) middlewareOptions).
  assert (Hopt : nullish options = false)
    by (subst options; destruct middlewareOptions; try reflexivity; contradiction).
  assert (Hex : Middleware.extractAgentId (Express.ex_request req) options =
                Throw (TypeError ("Cannot read properties of " +:+
                                  to_string (Middleware.body (Express.ex_request req)) +:+
                                  " (reading 'agent_id')"))).
  { unfold Middleware.extractAgentId, Middleware.sources, head_candidates in *.
    inversion Hall as [| v1 l1 H1 Hall1]; subst.
    inversion Hall1 as [| v2 l2 H2 Hall2]; subst.
    inversion Hall2 as [| v3 l3 H3 _]; subst.
    cbn [Middleware.first_agent_id]. rewrite H1, H2, H3.
    unfold get. now rewrite Hb. }
  rewrite Hex. unfold mbind, Express.completion_bind, get. rewrite Hopt.
  destruct (Express.is_strict (field options "strict")); reflexivity.
Qed.

Lemma unparsed_body_without_agent_id_witness :
  Express.requirePolicy_with Express.mock_verify refund_policy
    (VObj [("strict", VBool false)])
    {| Express.ex_request :=
         {| Middleware.headers := []; Middleware.query := [];
            Middleware.body := VUndefined |};
       Express.ex_method := VStr "GET"; Express.ex_path := VStr "/refund";
       Express.ex_userAgent := VUndefined; Express.ex_ip := VStr "::1" |}
  = Normal (Express.Next
              (VObj [("verified", VBool false);
                     ("error",
                      VStr "Cannot read properties of undefined (reading 'agent_id')")])).
Proof.
  refine (unparsed_body_without_agent_id Express.mock_verify refund_policy
            (VObj [("strict", VBool false)])
            {| Express.ex_request :=
                 {| Middleware.headers := []; Middleware.query := [];
                    Middleware.body := VUndefined |};
               Express.ex_method := VStr "GET"; Express.ex_path := VStr "/refund";
               Express.ex_userAgent := VUndefined; Express.ex_ip := VStr "::1" |}
            eq_refl _ _); [discriminate | repeat constructor].
Defined.

(** X14: the middleware of the template, built over its mock client, never
    denies: every request in which an agent id is found is passed to
    [next] as verified, for that agent and whatever the policy. *)
Theorem template_never_denies policy middlewareOptions req agentId :
  middlewareOptions <> VNull ->
  Middleware.extractAgentId (Express.ex_request req)
    (default_param (VObj []) middlewareOptions) = Normal agentId ->
  truthy agentId = true ->
  exists passport result,
    Express.requirePolicy policy middlewareOptions req =
    Normal (Express.Next (VObj [("verified", VBool true);
                                ("passport", passport);
                                ("policy", policy);
                                ("agentId", agentId);
                                ("result", result)])).
Proof.
  intros Ho Hex Hid.
  unfold Express.requirePolicy, Express.requirePolicy_with, Express.attempt. cbv zeta.
  assert (Hopt : nullish (default_param (VObj []) middlewareOptions) = false)
    by (destruct middlewareOptions; try reflexivity; contradiction).
  rewrite Hex. unfold mbind, Express.completion_bind, get. rewrite Hid, Hopt.
  simpl. eauto.
Qed.

Lemma template_never_denies_witness :
  exists passport result,
    Express.requirePolicy refund_policy VUndefined refund_req =
    Normal (Express.Next (VObj [("verified", VBool true);
                                ("passport", passport);
                                ("policy", refund_policy);
                                ("agentId", VStr "agt_test123");
                                ("result", result)])).
Proof.
  apply template_never_denies; [discriminate | reflexivity | reflexivity].
Defined.

(** ** The Next.js middleware *)

(** The agent id of the Next.js middleware is a string or [null]. *)
Lemma middleware_agentId_shape request :
  Middleware.middleware_agentId request = VNull
  \/ exists s, Middleware.middleware_agentId request = VStr s.
Proof.
  unfold Middleware.middleware_agentId, Middleware.headers_get, JS.or.
  destruct (Middleware.next_headers request !! "x-agent-id") as [h1 |];
    destruct (Middleware.next_headers request !! "x-aport-agent-id") as [h2 |];
    destruct (params_get_shape (Middleware.searchParams request) "agent_id")
      as [-> | [q ->]];
    simpl;
    repeat match goal with
      | |- context [String.eqb ?s ""] => destruct (String.eqb s ""); simpl
      end; eauto.
Qed.

(** The mock client turns every agent but one away. *)
Lemma mock_verify_other now policy a context :
  a <> "test-agent-123" ->
  NextJS.mock_verify now policy (VStr a) context =
  Normal (VObj [("verified", VBool false);
                ("message", VStr "Agent verification failed");
                ("details", VObj [("error", VStr "Invalid agent ID")])]).
Proof.
  intros Hne. unfold NextJS.mock_verify.
  set (yes := Normal (VObj (("verified", VBool true) :: _))).
  set (no := Normal (VObj (("verified", VBool false) :: _))).
  clearbody yes no. revert Hne.
  repeat (destruct a as [| [[] [] [] [] [] [] [] []] a]; try (intros _; reflexivity)).
  intros Hne. now contradiction Hne.
Qed.

(** Outside production the client is the mock. *)
Lemma client_is_mock s policy agentId context :
  NextJS.NODE_ENV s <> Some "production" ->
  NextJS.client_verify s policy agentId context =
  NextJS.mock_verify (NextJS.now s) policy agentId context.
Proof.
  intros Henv. unfold NextJS.client_verify.
  set (real := match NextJS.sdk_verify s with Some _ => _ | None => _ end).
  set (mock := NextJS.mock_verify _ _ _ _).
  clearbody real mock.
  destruct (NextJS.NODE_ENV s) as [mode |]; [| reflexivity].
  assert (Hne : mode <> "production") by (intros ->; now apply Henv).
  clear Henv. revert Hne.
  repeat (destruct mode as [| [[] [] [] [] [] [] [] []] mode];
          try (intros _; reflexivity)).
  intros Hne. now contradiction Hne.
Qed.

(** X15: outside production, where the mock client is in place, the
    middleware admits exactly one agent on a protected route.  A request
    whose agent id is "test-agent-123" continues with the headers
    [x-aport-verified: true], [x-aport-agent-id] and [x-aport-policy] of its
    route (and the passport header when there is an encoding); any other
    agent id is answered 403, and a request without one 400. *)
Theorem mock_admits_one_agent s request :
  NextJS.NODE_ENV s <> Some "production" ->
  NextJS.skipped (NextJS.pathname request) = false ->
  let agentId := Middleware.middleware_agentId (NextJS.nx_request request) in
  (agentId = VStr "test-agent-123" ->
   exists passport_header,
     NextJS.middleware s request =
     Normal (NextJS.Continue
               ([("x-aport-verified", "true");
                 ("x-aport-agent-id", "test-agent-123");
                 ("x-aport-policy", NextJS.route_policy (NextJS.pathname request))]
                ++ passport_header)))
  /\ (truthy agentId = true -> agentId <> VStr "test-agent-123" ->
      NextJS.middleware s request =
      Normal (NextJS.Json 403
                (VObj [("error", VStr "Verification failed");
                       ("message", VStr "Agent verification failed");
                       ("details", VObj [("error", VStr "Invalid agent ID")])])))
  /\ (truthy agentId = false ->
      exists body, NextJS.middleware s request = Normal (NextJS.Json 400 body)).
Proof.
  intros Henv Hskip agentId.
  unfold NextJS.middleware. rewrite Hskip. fold agentId.
  split; [| split].
  - intros Hid. rewrite Hid. cbn [truthy String.eqb negb Ascii.eqb Bool.eqb].
    unfold NextJS.attempt. rewrite (client_is_mock s _ _ _ Henv). cbn.
    eexists. reflexivity.
  - intros Ht Hne. rewrite Ht. cbn [negb].
    unfold NextJS.attempt. rewrite (client_is_mock s _ _ _ Henv).
    destruct (middleware_agentId_shape (NextJS.nx_request request)) as [Hn | [a Ha]].
    + fold agentId in Hn. rewrite Hn in Ht. discriminate Ht.
    + fold agentId in Ha. rewrite Ha in Hne |- *.
      rewrite mock_verify_other by (intros ->; now apply Hne).
      reflexivity.
  - intros Hf. rewrite Hf. cbn [negb]. eauto.
Qed.

Lemma mock_admits_one_agent_witness :
  NextJS.middleware
    {| NextJS.NODE_ENV := Some "development"; NextJS.global_NODE_ENV := VUndefined;
       NextJS.sdk_verify := None; NextJS.now := "2025-10-02T09:03:00.000Z";
       NextJS.encode := fun _ => "" |}
    {| NextJS.nx_request :=
         {| Middleware.next_headers := {["x-agent-id" := "agt_other"]};
            Middleware.searchParams := [] |};
       NextJS.pathname := "/api/payments/refund";
       NextJS.nx_method := "POST"; NextJS.nx_ip := VUndefined |}
  = Normal (NextJS.Json 403
              (VObj [("error", VStr "Verification failed");
                     ("message", VStr "Agent verification failed");
                     ("details", VObj [("error", VStr "Invalid agent ID")])])).
Proof.
  apply (mock_admits_one_agent
           {| NextJS.NODE_ENV := Some "development"; NextJS.global_NODE_ENV := VUndefined;
              NextJS.sdk_verify := None; NextJS.now := "2025-10-02T09:03:00.000Z";
              NextJS.encode := fun _ => "" |}
           {| NextJS.nx_request :=
                {| Middleware.next_headers := {["x-agent-id" := "agt_other"]};
                   Middleware.searchParams := [] |};
              NextJS.pathname := "/api/payments/refund";
              NextJS.nx_method := "POST"; NextJS.nx_ip := VUndefined |});
    [discriminate | reflexivity | reflexivity | discriminate].
Defined.

(** X16: in production without the SDK installed there is no client, and
    a request for a protected route that carries an agent id is never
    verified: it is answered 500 "Verification error", or, when the
    development check holds all the same (through the global [NODE_ENV]),
    let through without any verification header. *)
Theorem production_without_sdk s request :
  NextJS.NODE_ENV s = Some "production" ->
  NextJS.sdk_verify s = None ->
  NextJS.skipped (NextJS.pathname request) = false ->
  truthy (Middleware.middleware_agentId (NextJS.nx_request request)) = true ->
  NextJS.middleware s request =
  Normal (if NextJS.isDev s
          then NextJS.Continue []
          else NextJS.Json 500
                 (VObj [("error", VStr "Verification error");
                        ("message", VStr "Internal verification error")])).
Proof.
  intros Henv Hsdk Hskip Hid.
  unfold NextJS.middleware, NextJS.attempt, NextJS.client_verify.
  rewrite Hskip, Hid, Henv, Hsdk. cbn [negb mbind Express.completion_bind].
  destruct (NextJS.isDev s); reflexivity.
Qed.

Lemma production_without_sdk_witness :
  NextJS.middleware
    {| NextJS.NODE_ENV := Some "production"; NextJS.global_NODE_ENV := VUndefined;
       NextJS.sdk_verify := None; NextJS.now := "2025-10-02T09:03:00.000Z";
       NextJS.encode := fun _ => "" |}
    {| NextJS.nx_request :=
         {| Middleware.next_headers := {["x-agent-id" := "test-agent-123"]};
            Middleware.searchParams := [] |};
       NextJS.pathname := "/api/admin/dashboard";
       NextJS.nx_method := "GET"; NextJS.nx_ip := VUndefined |}
  = Normal (NextJS.Json 500
              (VObj [("error", VStr "Verification error");
                     ("message", VStr "Internal verification error")])).
Proof.
  apply (production_without_sdk
           {| NextJS.NODE_ENV := Some "production"; NextJS.global_NODE_ENV := VUndefined;
              NextJS.sdk_verify := None; NextJS.now := "2025-10-02T09:03:00.000Z";
              NextJS.encode := fun _ => "" |}); reflexivity.
Defined.

Lemma is_prefix_app p rest : is_prefix p (p +:+ rest) = true.
Proof.
  induction p as [| a p IH]; simpl; [reflexivity |].
  rewrite IH. destruct (Ascii.eqb_spec a a); [reflexivity | contradiction].
Qed.

(** X17: the Next.js middleware lets the home page and every path under
    [/_next], [/favicon.ico] and [/api/public] through without looking at
    the agent: no verification, no header, whatever the request carries. *)
Theorem public_paths_are_not_verified s request :
  NextJS.pathname request = "/"
  \/ (exists rest, NextJS.pathname request = "/_next" +:+ rest)
  \/ (exists rest, NextJS.pathname request = "/favicon.ico" +:+ rest)
  \/ (exists rest, NextJS.pathname request = "/api/public" +:+ rest) ->
  NextJS.middleware s request = Normal (NextJS.Continue []).
Proof.
  intros H. unfold NextJS.middleware.
  assert (Hskip : NextJS.skipped (NextJS.pathname request) = true).
  { unfold NextJS.skipped.
    destruct H as [-> | [[rest ->] | [[rest ->] | [rest ->]]]].
    - reflexivity.
    - now rewrite is_prefix_app.
    - rewrite (is_prefix_app "/favicon.ico"). apply orb_true_iff. left.
      apply orb_true_iff. left. apply orb_true_r.
    - rewrite (is_prefix_app "/api/public"). apply orb_true_r. }
  now rewrite Hskip.
Qed.

Lemma public_paths_are_not_verified_witness :
  NextJS.middleware
    {| NextJS.NODE_ENV := Some "production"; NextJS.global_NODE_ENV := VUndefined;
       NextJS.sdk_verify := None; NextJS.now := "2025-10-02T09:03:00.000Z";
       NextJS.encode := fun _ => "" |}
    {| NextJS.nx_request :=
         {| Middleware.next_headers := ∅; Middleware.searchParams := [] |};
       NextJS.pathname := "/api/public/health";
       NextJS.nx_method := "GET"; NextJS.nx_ip := VUndefined |}
  = Normal (NextJS.Continue []).
Proof.
  apply public_paths_are_not_verified.
  right. right. right. exists "/health". reflexivity.
Defined.

(** ** The Go printer *)



